(** * Order execution and risk management core of the trading system

    A shallow embedding of
      backend/src/risk/risk_manager.py
      backend/src/execution/execution_engine.py
    Python [float] is IEEE 754 binary64 and is modelled by Rocq's primitive
    floats, so every arithmetic result below is the one the interpreter
    computes, rounding included.  Python exceptions are modelled by a result
    type that carries the class name and the message of the exception. *)

From Stdlib Require Import Floats ZArith Lia List Bool Sorted.
From stdpp Require Import base option list gmap strings.
Import ListNotations.

Set Warnings "-inexact-float".

(** ** Python values shared by both modules *)

(** A raised exception: the class name and [str(e)]. *)
Record exn : Type := Exn { exn_class : string; exn_msg : string }.

Inductive result (A : Type) : Type :=
| Ok (a : A)
| Raise (e : exn).
Arguments Ok {A} a.
Arguments Raise {A} e.

Definition rbind {A B : Type} (r : result A) (k : A -> result B) : result B :=
  match r with
  | Ok a => k a
  | Raise e => Raise e
  end.

Declare Scope result_scope.
Delimit Scope result_scope with result.
Notation "x <- r ;; k" := (rbind r (fun x => k))
  (at level 100, r at next level, right associativity) : result_scope.

Definition ZeroDivisionError : exn := Exn "ZeroDivisionError" "float division by zero".
(** [str(KeyError(k))] is the repr of the key. *)
Definition KeyError (k : string) : exn :=
  Exn "KeyError" (String.append "'" (String.append k "'")).

(** [a / b] on Python floats: a zero divisor (of either sign) raises, every
    other case is the IEEE quotient. *)
Definition py_truediv (a b : float) : result float :=
  if PrimFloat.eqb b 0%float then Raise ZeroDivisionError else Ok (a / b)%float.

(** [a > b] and [a < b] on floats; both are false when an operand is NaN. *)
Definition py_gt (a b : float) : bool := PrimFloat.ltb b a.
Definition py_lt (a b : float) : bool := PrimFloat.ltb a b.

(** The builtin [max(a, b)]: the first argument is kept unless the second
    compares strictly greater. *)
Definition py_max (a b : float) : float := if py_gt b a then b else a.

(** [d[k]] on a dict with string keys. *)
Definition py_getitem {V : Type} (d : gmap string V) (k : string) : result V :=
  match d !! k with
  | Some v => Ok v
  | None => Raise (KeyError k)
  end.

(** [sum(xs)]: the accumulator starts at the integer 0 and adds left to right. *)
Definition py_sum (xs : list float) : float :=
  fold_left (fun acc x => (acc + x)%float) xs 0%float.

(** [datetime] values, in microseconds since the epoch. *)
Definition datetime : Type := Z.
Definition timedelta_days (d : Z) : Z := (d * 86400 * 1000000)%Z.

(** ml_models.py, [MarketRegime]. *)
Record MarketRegime : Type := {
  trend : string;
  volatility : string;
  strength : float;
  confidence : float
}.

(** ** Comparisons of binary64 values *)

Local Open Scope float_scope.

Ltac sf_const c :=
  let v := eval vm_compute in (Prim2SF c) in change (Prim2SF c) with v.

Ltac result_cases H :=
  repeat match type of H with
         | context [rbind ?r _] =>
             let E := fresh "E" in
             destruct r eqn:E; cbn [rbind] in H; [ | discriminate H ]
         end.

Definition is_nan (x : float) : bool := negb (PrimFloat.eqb x x).

Lemma ltb_leb (x y : float) : PrimFloat.ltb x y = true -> PrimFloat.leb x y = true.
Proof.
  rewrite FloatAxioms.ltb_spec, FloatAxioms.leb_spec. unfold SFltb, SFleb.
  destruct (SFcompare _ _) as [[]|]; congruence.
Qed.

Lemma leb_refl (x : float) : is_nan x = false -> PrimFloat.leb x x = true.
Proof.
  unfold is_nan. intros H. apply negb_false_iff in H. revert H.
  rewrite FloatAxioms.eqb_spec, FloatAxioms.leb_spec. unfold SFeqb, SFleb.
  destruct (SFcompare _ _) as [[]|]; congruence.
Qed.

Lemma ltb_not_nan_r (x y : float) : PrimFloat.ltb x y = true -> is_nan y = false.
Proof.
  unfold is_nan. intros H. apply negb_false_iff. revert H.
  rewrite FloatAxioms.ltb_spec, FloatAxioms.eqb_spec. unfold SFltb, SFeqb, SFcompare.
  destruct (Prim2SF y) as [s'|s'| |s' m' e']; try destruct s'; cbn;
    rewrite ?Z.compare_refl, ?Pos.compare_cont_refl; try reflexivity.
  destruct (Prim2SF x) as [s|s| |s m e]; cbn; congruence.
Qed.

Lemma ltb_asym (x y : float) : PrimFloat.ltb x y = true -> PrimFloat.ltb y x = false.
Proof.
  rewrite !FloatAxioms.ltb_spec. unfold SFltb.
  destruct (Prim2SF x) as [s|s| |s m e], (Prim2SF y) as [s'|s'| |s' m' e'];
    try destruct s; try destruct s'; cbn; try congruence;
    destruct (Z.compare_spec e e'), (Z.compare_spec e' e); try lia; try congruence;
    subst; pose proof (Pos.compare_cont_antisym m m' Eq) as A; cbn in A;
    rewrite <- A; destruct (Pos.compare_cont Eq m m'); cbn; congruence.
Qed.

Lemma ltb_irrefl (x : float) : PrimFloat.ltb x x = false.
Proof.
  destruct (PrimFloat.ltb x x) eqn:E; [ | reflexivity ].
  rewrite <- E. apply ltb_asym, E.
Qed.

Lemma abs_not_negative (x : float) : py_lt (abs x) 0 = false.
Proof.
  unfold py_lt. rewrite FloatAxioms.ltb_spec, FloatAxioms.abs_spec. sf_const 0.
  unfold SFltb. destruct (Prim2SF x) as [s|s| |s m e]; reflexivity.
Qed.

(** Below half of the default [max_portfolio_risk] is not above it. *)
Lemma below_half_not_above (r : float) :
  py_lt r (0.05 * 0.5) = true -> py_gt r 0.05 = false.
Proof.
  unfold py_lt, py_gt. rewrite !FloatAxioms.ltb_spec.
  sf_const (0.05 * 0.5). sf_const 0.05. unfold SFltb.
  destruct (Prim2SF r) as [s|s| |s m e]; try destruct s; cbv [SFcompare];
    try congruence.
  destruct (Z.compare_spec e (-58)), (Z.compare_spec (-57) e); try lia; congruence.
Qed.

(** [max] never returns less than its first argument. *)
Lemma py_max_not_below (a b : float) : py_lt (py_max a b) a = false.
Proof.
  unfold py_max, py_gt, py_lt. destruct (PrimFloat.ltb a b) eqn:E.
  - apply ltb_asym, E.
  - apply ltb_irrefl.
Qed.

Lemma py_max_above (a b : float) :
  is_nan a = false ->
  PrimFloat.leb a (py_max a b) = true /\ is_nan (py_max a b) = false.
Proof.
  intros Ha. unfold py_max, py_gt. destruct (PrimFloat.ltb a b) eqn:E.
  - split; [ apply ltb_leb, E | apply (ltb_not_nan_r a b E) ].
  - split; [ apply leb_refl, Ha | exact Ha ].
Qed.

Local Close Scope float_scope.

Module Risk.

Local Open Scope float_scope.
Local Open Scope result_scope.

Record PositionSize : Type := {
  units : float;
  value : float;
  risk_amount : float;
  risk_percent : float;
  position_type : string
}.

Record StopLevels : Type := {
  initial_stop : float;
  trailing_stop : float;
  breakeven_stop : float;
  time_stop : datetime;
  profit_stops : list float
}.

(** The state of a [RiskManager] instance.  [current_positions] is kept in
    insertion order, the order in which [sum] walks [dict.values()]. *)
Record RiskManager : Type := {
  capital : float;
  risk_params : gmap string float;
  current_positions : list (string * PositionSize)
}.

Definition default_risk_params : gmap string float :=
  list_to_map
    [ ("max_position_size", 0.02);
      ("max_portfolio_risk", 0.05);
      ("max_correlation_risk", 0.3);
      ("max_sector_exposure", 0.2);
      ("max_daily_drawdown", 0.03);
      ("position_scaling_factor", 0.5);
      ("stop_loss_atr_factor", 2.0) ].

(** [RiskManager.__init__]: the caller's entries override the defaults. *)
Definition RiskManager_init (capital : float) (risk_params : gmap string float)
  : RiskManager :=
  {| capital := capital;
     risk_params := risk_params ∪ default_risk_params;
     current_positions := [] |}.

Definition _get_regime_adjustment (self : RiskManager) (regime : MarketRegime)
  : result float :=
  if String.eqb (volatility regime) "HIGH" then
    py_getitem (risk_params self) "position_scaling_factor"
  else if String.eqb (volatility regime) "LOW" && String.eqb (trend regime) "STRONG" then
    Ok 1.2
  else Ok 1.0.

Definition _get_signal_adjustment (signal_strength : float) : float :=
  if py_gt signal_strength 0.8 then 1.2
  else if py_lt signal_strength 0.4 then 0.8
  else 1.0.

(** The two locals of [_get_portfolio_adjustment]. *)
Definition current_exposure (self : RiskManager) : float :=
  py_sum (map (fun kv => value (snd kv)) (current_positions self)).

Definition exposure_ratio (self : RiskManager) : result float :=
  py_truediv (current_exposure self) (capital self).

Definition _get_portfolio_adjustment (self : RiskManager) : result float :=
  exposure_ratio <- exposure_ratio self ;;
  max_risk <- py_getitem (risk_params self) "max_portfolio_risk" ;;
  if py_gt exposure_ratio max_risk then Ok 0.5
  else
    max_risk' <- py_getitem (risk_params self) "max_portfolio_risk" ;;
    if py_lt exposure_ratio (max_risk' * 0.5) then Ok 1.2 else Ok 1.0.

(** The locals of [calculate_position_size] up to [adjusted_units], the value
    handed to [_verify_risk_limits]. *)
Record sizing : Type := {
  s_risk_amount : float;
  s_risk_per_share : float;
  s_base_units : float;
  s_regime_factor : float;
  s_signal_factor : float;
  s_portfolio_factor : float;
  s_adjusted_units : float
}.

Definition sizing_locals (self : RiskManager)
    (entry_price stop_loss signal_strength : float) (market_regime : MarketRegime)
  : result sizing :=
  max_position_size <- py_getitem (risk_params self) "max_position_size" ;;
  let risk_amount := capital self * max_position_size in
  let risk_per_share := abs (entry_price - stop_loss) in
  base_units <- py_truediv risk_amount risk_per_share ;;
  regime_factor <- _get_regime_adjustment self market_regime ;;
  let signal_factor := _get_signal_adjustment signal_strength in
  portfolio_factor <- _get_portfolio_adjustment self ;;
  let adjusted_units := base_units * regime_factor * signal_factor * portfolio_factor in
  Ok {| s_risk_amount := risk_amount;
        s_risk_per_share := risk_per_share;
        s_base_units := base_units;
        s_regime_factor := regime_factor;
        s_signal_factor := signal_factor;
        s_portfolio_factor := portfolio_factor;
        s_adjusted_units := adjusted_units |}.

Definition calculate_stop_levels (self : RiskManager) (now : datetime)
    (entry_price atr signal_strength : float) (market_regime : MarketRegime)
  : result StopLevels :=
  factor <- py_getitem (risk_params self) "stop_loss_atr_factor" ;;
  let initial_stop0 := entry_price - (atr * factor) in
  initial_stop <-
    (if String.eqb (volatility market_regime) "HIGH" then
       factor' <- py_getitem (risk_params self) "stop_loss_atr_factor" ;;
       Ok (entry_price - (atr * factor' * 1.5))
     else Ok initial_stop0) ;;
  let trailing_stop := entry_price - (atr * 3) in
  let breakeven_stop := entry_price + (entry_price - initial_stop) * 0.3 in
  let time_stop := (now + timedelta_days 5)%Z in
  let profit_stops :=
    map (fun multiplier => entry_price + (entry_price - initial_stop) * multiplier)
        [1.5; 2.0; 3.0] in
  Ok {| initial_stop := initial_stop;
        trailing_stop := trailing_stop;
        breakeven_stop := breakeven_stop;
        time_stop := time_stop;
        profit_stops := profit_stops |}.

Section WithRiskLimits.

(** [_verify_risk_limits] and [_get_position_type] are called by
    [calculate_position_size] but defined nowhere in the repository; they are
    taken as given, and either may raise. *)
Variable _verify_risk_limits : RiskManager -> float -> float -> string -> result float.
Variable _get_position_type : RiskManager -> float -> result string.

Definition calculate_position_size (self : RiskManager) (symbol : string)
    (entry_price stop_loss signal_strength : float) (market_regime : MarketRegime)
  : result PositionSize :=
  l <- sizing_locals self entry_price stop_loss signal_strength market_regime ;;
  final_units <- _verify_risk_limits self (s_adjusted_units l) entry_price symbol ;;
  risk_percent <- py_truediv (s_risk_amount l) (capital self) ;;
  position_type <- _get_position_type self (s_regime_factor l) ;;
  Ok {| units := final_units;
        value := final_units * entry_price;
        risk_amount := s_risk_amount l;
        risk_percent := risk_percent;
        position_type := position_type |}.

(** ** PositionManager *)

(** A position is a dict; the keys written by [update_position] are absent
    until the first update.  Its [StopLevels] object is referenced from this
    dict only, so it is kept inline. *)
Record Position : Type := {
  p_symbol : string;
  p_entry_price : float;
  p_size : PositionSize;
  p_stops : StopLevels;
  p_entry_time : datetime;
  p_signal : gmap string float;
  p_market_regime : MarketRegime;
  p_current_price : option float;
  p_unrealized_pl : option float
}.

(** [self.positions[symbol]] and the entries of [self.position_history] refer
    to the same dict objects.  [objects] is the store of the dicts created so
    far and a reference is an index into it. *)
Record PositionManager : Type := {
  risk_manager : RiskManager;
  objects : list Position;
  positions : gmap string nat;
  position_history : list nat
}.

Definition PositionManager_init (risk_manager : RiskManager) : PositionManager :=
  {| risk_manager := risk_manager;
     objects := [];
     positions := ∅;
     position_history := [] |}.

(** [now_stops] and [now_entry] are the two readings of [datetime.now()], the
    first inside [calculate_stop_levels].  Each key of [signal] is looked up
    once, in the order of its first use. *)
Definition open_position (self : PositionManager) (now_stops now_entry : datetime)
    (symbol : string) (signal : gmap string float) (market_regime : MarketRegime)
  : result (nat * PositionManager) :=
  price <- py_getitem signal "price" ;;
  stop_loss <- py_getitem signal "stop_loss" ;;
  strength <- py_getitem signal "strength" ;;
  position_size <-
    calculate_position_size (risk_manager self) symbol price stop_loss strength
      market_regime ;;
  atr <- py_getitem signal "atr" ;;
  stop_levels <-
    calculate_stop_levels (risk_manager self) now_stops price atr strength
      market_regime ;;
  let position :=
    {| p_symbol := symbol;
       p_entry_price := price;
       p_size := position_size;
       p_stops := stop_levels;
       p_entry_time := now_entry;
       p_signal := signal;
       p_market_regime := market_regime;
       p_current_price := None;
       p_unrealized_pl := None |} in
  let ref := length (objects self) in
  Ok (ref,
      {| risk_manager := risk_manager self;
         objects := objects self ++ [position];
         positions := <[symbol := ref]> (positions self);
         position_history := position_history self ++ [ref] |}).

(** The in-place writes of [update_position] on the dict. *)
Definition updated (position : Position) (new_trailing_stop current_price : float)
  : Position :=
  {| p_symbol := p_symbol position;
     p_entry_price := p_entry_price position;
     p_size := p_size position;
     p_stops :=
       {| initial_stop := initial_stop (p_stops position);
          trailing_stop := new_trailing_stop;
          breakeven_stop := breakeven_stop (p_stops position);
          time_stop := time_stop (p_stops position);
          profit_stops := profit_stops (p_stops position) |};
     p_entry_time := p_entry_time position;
     p_signal := p_signal position;
     p_market_regime := p_market_regime position;
     p_current_price := Some current_price;
     p_unrealized_pl :=
       Some ((current_price - p_entry_price position) * units (p_size position)) |}.

(** A reference held by the registry always denotes a stored dict (see
    [registry_ok] below); the last branch is there for totality only. *)
Definition update_position (self : PositionManager) (symbol : string)
    (current_price current_atr : float)
  : result (option nat * PositionManager) :=
  match positions self !! symbol with
  | None => Ok (None, self)
  | Some ref =>
      match objects self !! ref with
      | Some position =>
          factor <- py_getitem (risk_params (risk_manager self)) "stop_loss_atr_factor" ;;
          let new_trailing_stop :=
            py_max (trailing_stop (p_stops position))
                   (current_price - (current_atr * factor)) in
          Ok (Some ref,
              {| risk_manager := risk_manager self;
                 objects :=
                   <[ref := updated position new_trailing_stop current_price]>
                     (objects self);
                 positions := positions self;
                 position_history := position_history self |})
      | None => Raise (Exn "ReferenceError" symbol)
      end
  end.

(** The trailing stop of the active position of [symbol], if there is one. *)
Definition trailing_stop_of (self : PositionManager) (symbol : string) : option float :=
  ref ← positions self !! symbol;
  position ← objects self !! ref;
  Some (trailing_stop (p_stops position)).

(** The trailing stops observed after each of a sequence of
    [update_position(symbol, price, atr)] calls; the run stops at the first
    call that does not update. *)
Fixpoint trailing_stops_after (self : PositionManager) (symbol : string)
    (ticks : list (float * float)) : list float :=
  match ticks with
  | [] => []
  | (current_price, current_atr) :: rest =>
      match update_position self symbol current_price current_atr with
      | Ok (Some _, self') =>
          match trailing_stop_of self' symbol with
          | Some t => t :: trailing_stops_after self' symbol rest
          | None => []
          end
      | _ => []
      end
  end.

(** Every reference in the registry denotes a stored dict. *)
Definition registry_ok (self : PositionManager) : Prop :=
  forall (symbol : string) (ref : nat),
    positions self !! symbol = Some ref -> is_Some (objects self !! ref).

(** ** Properties of the risk manager *)

(** *** The defaults of [RiskManager.__init__] *)

Lemma init_param (capital : float) (k : string) (v : float) :
  default_risk_params !! k = Some v ->
  py_getitem (risk_params (RiskManager_init capital ∅)) k = Ok v.
Proof.
  intros H. unfold py_getitem, RiskManager_init. cbn [risk_params].
  rewrite (left_id_L ∅ (∪)), H. reflexivity.
Qed.

(** An override can replace a default but no key of the defaults goes missing. *)
Lemma init_param_present (capital : float) (overrides : gmap string float) (k : string) :
  is_Some (default_risk_params !! k) ->
  exists v, py_getitem (risk_params (RiskManager_init capital overrides)) k = Ok v.
Proof.
  intros [d Hd]. unfold py_getitem, RiskManager_init. cbn [risk_params].
  destruct (overrides !! k) as [o|] eqn:Ho.
  - exists o. rewrite (lookup_union_Some_l _ _ _ _ Ho). reflexivity.
  - exists d. rewrite lookup_union_r by exact Ho. rewrite Hd. reflexivity.
Qed.

(** *** Position sizing *)

(** What a successful run of [sizing_locals] computed. *)
Lemma sizing_locals_inv (self : RiskManager) (entry_price stop_loss signal_strength : float)
    (market_regime : MarketRegime) (l : sizing) :
  sizing_locals self entry_price stop_loss signal_strength market_regime = Ok l ->
  exists max_position_size,
    py_getitem (risk_params self) "max_position_size" = Ok max_position_size /\
    s_risk_amount l = capital self * max_position_size /\
    py_truediv (s_risk_amount l) (abs (entry_price - stop_loss)) = Ok (s_base_units l) /\
    _get_regime_adjustment self market_regime = Ok (s_regime_factor l) /\
    s_signal_factor l = _get_signal_adjustment signal_strength /\
    _get_portfolio_adjustment self = Ok (s_portfolio_factor l) /\
    s_adjusted_units l =
      s_base_units l * s_regime_factor l * s_signal_factor l * s_portfolio_factor l.
Proof.
  unfold sizing_locals. intros H. result_cases H.
  injection H as <-. cbn. eauto 10.
Qed.

(** Once the locals are computed, the call returns as soon as the two missing
    methods return and the capital is not zero. *)
Lemma calculate_position_size_returns (self : RiskManager) (symbol : string)
    (entry_price stop_loss signal_strength : float) (market_regime : MarketRegime)
    (l : sizing) (final_units : float) (tag : string) :
  sizing_locals self entry_price stop_loss signal_strength market_regime = Ok l ->
  _verify_risk_limits self (s_adjusted_units l) entry_price symbol = Ok final_units ->
  PrimFloat.eqb (capital self) 0 = false ->
  _get_position_type self (s_regime_factor l) = Ok tag ->
  calculate_position_size self symbol entry_price stop_loss signal_strength market_regime
  = Ok {| units := final_units;
          value := final_units * entry_price;
          risk_amount := s_risk_amount l;
          risk_percent := s_risk_amount l / capital self;
          position_type := tag |}.
Proof.
  intros Hl Hv Hc Ht. unfold calculate_position_size, py_truediv.
  rewrite Hl. cbn [rbind]. rewrite Hv. cbn [rbind]. rewrite Hc. cbn [rbind].
  rewrite Ht. reflexivity.
Qed.

(** C10: for a regime whose trend is BULLISH, BEARISH or NEUTRAL and whose
    volatility is not HIGH, the regime adjustment factor is exactly 1.0; the
    1.2 branch tests the trend against 'STRONG' and is never taken. *)
Theorem regime_adjustment_documented_trend (self : RiskManager) (regime : MarketRegime) :
  trend regime = "BULLISH" \/ trend regime = "BEARISH" \/ trend regime = "NEUTRAL" ->
  volatility regime <> "HIGH" ->
  _get_regime_adjustment self regime = Ok 1.0.
Proof.
  intros Ht Hv. unfold _get_regime_adjustment.
  destruct (String.eqb_spec (volatility regime) "HIGH") as [E|_]; [ contradiction | ].
  destruct Ht as [-> | [-> | ->]]; cbn [String.eqb Ascii.eqb Bool.eqb];
    rewrite andb_false_r; reflexivity.
Qed.

(** The manager of scenario A: capital 100000, default risk parameters, and
    any open positions. *)
Definition scenario_A_manager (open_positions : list (string * PositionSize))
  : RiskManager :=
  {| capital := 100000;
     risk_params := risk_params (RiskManager_init 100000 ∅);
     current_positions := open_positions |}.

(** C1: scenario A.  With capital 100000, the default max_position_size 0.02,
    entry 50, stop 48, strength 0.5, a NORMAL/NORMAL regime and an exposure
    ratio below half of max_portfolio_risk, the risk amount is 2000, the base
    units 1000, the regime and signal factors 1.0, the portfolio factor 1.2,
    and 1200 units are handed to the limit check, whose answer becomes the
    units of the returned size. *)
Theorem scenario_A_sizing (open_positions : list (string * PositionSize))
    (ratio regime_strength regime_confidence : float) :
  exposure_ratio (scenario_A_manager open_positions) = Ok ratio ->
  py_lt ratio (0.05 * 0.5) = true ->
  sizing_locals (scenario_A_manager open_positions) 50 48 0.5
    {| trend := "NORMAL"; volatility := "NORMAL";
       strength := regime_strength; confidence := regime_confidence |}
  = Ok {| s_risk_amount := 2000;
          s_risk_per_share := 2;
          s_base_units := 1000;
          s_regime_factor := 1.0;
          s_signal_factor := 1.0;
          s_portfolio_factor := 1.2;
          s_adjusted_units := 1200 |}
  /\ forall symbol,
       calculate_position_size (scenario_A_manager open_positions) symbol 50 48 0.5
         {| trend := "NORMAL"; volatility := "NORMAL";
            strength := regime_strength; confidence := regime_confidence |}
       = (final_units <-
            _verify_risk_limits (scenario_A_manager open_positions) 1200 50 symbol ;;
          position_type <-
            _get_position_type (scenario_A_manager open_positions) 1.0 ;;
          Ok {| units := final_units;
                value := final_units * 50;
                risk_amount := 2000;
                risk_percent := 0.02;
                position_type := position_type |}).
Proof.
  intros Hr Hlt.
  assert (Hl : sizing_locals (scenario_A_manager open_positions) 50 48 0.5
                 {| trend := "NORMAL"; volatility := "NORMAL";
                    strength := regime_strength; confidence := regime_confidence |}
               = Ok {| s_risk_amount := 2000;
                       s_risk_per_share := 2;
                       s_base_units := 1000;
                       s_regime_factor := 1.0;
                       s_signal_factor := 1.0;
                       s_portfolio_factor := 1.2;
                       s_adjusted_units := 1200 |});
    [ | split;
        [ exact Hl
        | intros symbol; unfold calculate_position_size; rewrite Hl;
          cbn [rbind s_adjusted_units s_risk_amount s_regime_factor];
          destruct (_verify_risk_limits _ _ _ _); reflexivity ] ].
  assert (Hpf : _get_portfolio_adjustment (scenario_A_manager open_positions) = Ok 1.2).
  { unfold _get_portfolio_adjustment. rewrite Hr. cbn [rbind].
    change (py_getitem (risk_params (scenario_A_manager open_positions))
              "max_portfolio_risk") with (@Ok float 0.05).
    cbn [rbind]. rewrite (below_half_not_above ratio Hlt). cbn [rbind].
    rewrite Hlt. reflexivity. }
  unfold sizing_locals.
  change (py_getitem (risk_params (scenario_A_manager open_positions))
            "max_position_size") with (@Ok float 0.02).
  cbn [rbind capital scenario_A_manager].
  change (py_truediv (100000 * 0.02) (abs (50 - 48))) with (@Ok float 1000).
  cbn [rbind].
  change (_get_regime_adjustment _ _) with (@Ok float 1.0).
  cbn [rbind]. fold (scenario_A_manager open_positions). rewrite Hpf.
  cbn [rbind]. vm_compute. reflexivity.
Qed.

(** C3: the risk amount of a returned [PositionSize] is capital times
    max_position_size; the three adjustment factors enter the units handed to
    the limit check and nothing else. *)
Theorem risk_amount_independent_of_adjustments (self : RiskManager) (symbol : string)
    (entry_price stop_loss signal_strength : float) (market_regime : MarketRegime)
    (size : PositionSize) :
  calculate_position_size self symbol entry_price stop_loss signal_strength market_regime
  = Ok size ->
  exists (max_position_size base_units regime_factor portfolio_factor : float),
    py_getitem (risk_params self) "max_position_size" = Ok max_position_size /\
    risk_amount size = capital self * max_position_size /\
    py_truediv (capital self * max_position_size) (abs (entry_price - stop_loss))
    = Ok base_units /\
    _get_regime_adjustment self market_regime = Ok regime_factor /\
    _get_portfolio_adjustment self = Ok portfolio_factor /\
    _verify_risk_limits self
      (base_units * regime_factor * _get_signal_adjustment signal_strength
       * portfolio_factor)
      entry_price symbol
    = Ok (units size).
Proof.
  unfold calculate_position_size. intros H. result_cases H.
  injection H as <-. cbn [risk_amount units].
  destruct (sizing_locals_inv _ _ _ _ _ _ E)
    as (mps & Hk & Hra & Hbu & Hrf & Hsf & Hpf & Hau).
  exists mps, (s_base_units a), (s_regime_factor a), (s_portfolio_factor a).
  rewrite <- Hsf, <- Hau, <- Hra. auto 10.
Qed.

(** C5, as the code has it: a zero stop distance makes the division
    [risk_amount / risk_per_share] raise ZeroDivisionError, before the limit
    check is consulted; the distance is an absolute value and is never
    negative. *)
Theorem zero_stop_distance_raises (self : RiskManager) (symbol : string)
    (entry_price stop_loss signal_strength max_position_size : float)
    (market_regime : MarketRegime) :
  py_getitem (risk_params self) "max_position_size" = Ok max_position_size ->
  PrimFloat.eqb (abs (entry_price - stop_loss)) 0 = true ->
  calculate_position_size self symbol entry_price stop_loss signal_strength market_regime
  = Raise ZeroDivisionError
  /\ py_lt (abs (entry_price - stop_loss)) 0 = false.
Proof.
  intros Hk Hz. split; [ | apply abs_not_negative ].
  unfold calculate_position_size, sizing_locals, py_truediv.
  rewrite Hk. cbn [rbind]. rewrite Hz. reflexivity.
Qed.

(** C7: scenario B.  Entry 100, ATR 5, stop_loss_atr_factor 2.0 and HIGH
    volatility give initial stop 85, trailing stop 85, breakeven stop 104.5
    and the ascending profit stops 122.5, 130, 145. *)
Theorem scenario_B_stop_levels (self : RiskManager) (now : datetime)
    (signal_strength : float) (market_regime : MarketRegime) :
  py_getitem (risk_params self) "stop_loss_atr_factor" = Ok 2.0 ->
  volatility market_regime = "HIGH" ->
  calculate_stop_levels self now 100 5 signal_strength market_regime
  = Ok {| initial_stop := 85;
          trailing_stop := 85;
          breakeven_stop := 104.5;
          time_stop := (now + timedelta_days 5)%Z;
          profit_stops := [122.5; 130; 145] |}
  /\ StronglySorted (fun a b => py_lt a b = true) [122.5; 130; 145].
Proof.
  intros Hk Hv. split.
  - unfold calculate_stop_levels. rewrite Hk, Hv. cbn [rbind String.eqb Ascii.eqb Bool.eqb].
    cbn [map]. vm_compute. reflexivity.
  - repeat constructor.
Qed.

(** *** Position manager *)

(** The stops that the ratchet rule
    [max(previous stop, price - atr * stop_loss_atr_factor)] yields along a
    sequence of (price, atr) updates. *)
Fixpoint ratchet (factor stop : float) (ticks : list (float * float)) : list float :=
  match ticks with
  | [] => []
  | (current_price, current_atr) :: rest =>
      let stop' := py_max stop (current_price - (current_atr * factor)) in
      stop' :: ratchet factor stop' rest
  end.

Definition never_lower (previous next : float) : Prop := py_lt next previous = false.
Definition at_least (previous next : float) : Prop := PrimFloat.leb previous next = true.

Lemma ratchet_length (factor stop : float) (ticks : list (float * float)) :
  length (ratchet factor stop ticks) = length ticks.
Proof.
  revert stop. induction ticks as [|[p a] rest IH]; intros stop; cbn; [ | rewrite IH ];
    reflexivity.
Qed.

Lemma ratchet_never_lower (factor stop : float) (ticks : list (float * float)) :
  Sorted never_lower (stop :: ratchet factor stop ticks).
Proof.
  revert stop. induction ticks as [|[p a] rest IH]; intros stop; cbn [ratchet].
  - repeat constructor.
  - constructor; [ apply IH | constructor; apply py_max_not_below ].
Qed.

Lemma ratchet_at_least (factor stop : float) (ticks : list (float * float)) :
  is_nan stop = false ->
  Sorted at_least (stop :: ratchet factor stop ticks).
Proof.
  revert stop. induction ticks as [|[p a] rest IH]; intros stop Hs; cbn [ratchet].
  - repeat constructor.
  - destruct (py_max_above stop (p - a * factor) Hs) as [Hle Hn].
    constructor; [ apply IH, Hn | constructor; exact Hle ].
Qed.

(** One update of an open position. *)
Lemma update_position_open (self : PositionManager) (symbol : string) (ref : nat)
    (position : Position) (factor current_price current_atr : float) :
  positions self !! symbol = Some ref ->
  objects self !! ref = Some position ->
  py_getitem (risk_params (risk_manager self)) "stop_loss_atr_factor" = Ok factor ->
  let stop' :=
    py_max (trailing_stop (p_stops position)) (current_price - (current_atr * factor)) in
  exists self',
    update_position self symbol current_price current_atr = Ok (Some ref, self') /\
    risk_manager self' = risk_manager self /\
    positions self' = positions self /\
    position_history self' = position_history self /\
    objects self' !! ref = Some (updated position stop' current_price) /\
    trailing_stop_of self' symbol = Some stop'.
Proof.
  intros Hreg Hobj Hk stop'. unfold update_position. rewrite Hreg, Hobj, Hk. cbn [rbind].
  eexists. split; [ reflexivity | ]. cbn.
  assert (Hl : <[ref := updated position stop' current_price]> (objects self) !! ref
               = Some (updated position stop' current_price)).
  { apply list_lookup_insert_eq. eapply lookup_lt_Some, Hobj. }
  repeat split; [ exact Hl | ].
  unfold trailing_stop_of. cbn. rewrite Hreg. cbn. fold stop'. rewrite Hl. reflexivity.
Qed.

(** C4: for an open position, the trailing stop after each
    [update_position] is max(previous stop, price - atr * stop_loss_atr_factor);
    every update of the sequence takes effect, no stop is below its
    predecessor, and from a stop that is a number each one is at least its
    predecessor. *)
Theorem trailing_stop_ratchets (self : PositionManager) (symbol : string) (ref : nat)
    (position : Position) (factor : float) (ticks : list (float * float)) :
  positions self !! symbol = Some ref ->
  objects self !! ref = Some position ->
  py_getitem (risk_params (risk_manager self)) "stop_loss_atr_factor" = Ok factor ->
  trailing_stops_after self symbol ticks
  = ratchet factor (trailing_stop (p_stops position)) ticks
  /\ length (trailing_stops_after self symbol ticks) = length ticks
  /\ Sorted never_lower
       (trailing_stop (p_stops position) :: trailing_stops_after self symbol ticks)
  /\ (is_nan (trailing_stop (p_stops position)) = false ->
      Sorted at_least
        (trailing_stop (p_stops position) :: trailing_stops_after self symbol ticks)).
Proof.
  intros Hreg Hobj Hk.
  assert (Heq : trailing_stops_after self symbol ticks
                = ratchet factor (trailing_stop (p_stops position)) ticks).
  { revert self position Hreg Hobj Hk.
    induction ticks as [|[p a] rest IH]; intros self position Hreg Hobj Hk;
      [ reflexivity | ].
    destruct (update_position_open self symbol ref position factor p a Hreg Hobj Hk)
      as (self' & Hup & Hrm & Hpos & _ & Hobj' & Hts).
    cbn [trailing_stops_after ratchet]. rewrite Hup, Hts. f_equal.
    rewrite (IH self' (updated position
                         (py_max (trailing_stop (p_stops position)) (p - a * factor)) p));
      [ reflexivity | congruence | exact Hobj' | congruence ]. }
  rewrite Heq. split; [ reflexivity | ]. split; [ apply ratchet_length | ].
  split; [ apply ratchet_never_lower | apply ratchet_at_least ].
Qed.

(** C8, as the code has it: [open_position] does not look at the registry.
    When it returns, the new dict is stored under [symbol], replacing any
    active entry, and is appended to the history; whether it returns or
    raises is decided by the risk manager and the signal alone. *)
Theorem open_position_replaces (self : PositionManager) (now_stops now_entry : datetime)
    (symbol : string) (signal : gmap string float) (market_regime : MarketRegime) :
  (forall ref self',
     open_position self now_stops now_entry symbol signal market_regime = Ok (ref, self') ->
     ref = length (objects self) /\
     positions self' = <[symbol := ref]> (positions self) /\
     position_history self' = position_history self ++ [ref] /\
     risk_manager self' = risk_manager self /\
     exists position,
       objects self' = objects self ++ [position] /\
       p_symbol position = symbol /\ p_signal position = signal)
  /\ (forall other : PositionManager,
        risk_manager other = risk_manager self ->
        match open_position self now_stops now_entry symbol signal market_regime,
              open_position other now_stops now_entry symbol signal market_regime with
        | Ok _, Ok _ => True
        | Raise e, Raise e' => e = e'
        | _, _ => False
        end).
Proof.
  split.
  - intros ref self' H. unfold open_position in H. result_cases H.
    injection H as <- <-. cbn. eauto 10.
  - intros other Hrm. unfold open_position. rewrite Hrm.
    repeat match goal with
           | |- context [rbind ?r _] => destruct r; cbn [rbind]; [ | reflexivity ]
           end.
    exact I.
Qed.

(** The registry never holds a dangling reference. *)
Lemma registry_ok_init (risk_manager : RiskManager) :
  registry_ok (PositionManager_init risk_manager).
Proof. intros symbol ref H. cbn in H. rewrite lookup_empty in H. discriminate. Qed.

Lemma registry_ok_open (self : PositionManager) (now_stops now_entry : datetime)
    (symbol : string) (signal : gmap string float) (market_regime : MarketRegime)
    (ref : nat) (self' : PositionManager) :
  registry_ok self ->
  open_position self now_stops now_entry symbol signal market_regime = Ok (ref, self') ->
  registry_ok self'.
Proof.
  intros Hok H. unfold open_position in H. result_cases H.
  injection H as <- <-. intros sym r. cbn.
  destruct (decide (sym = symbol)) as [->|Hne].
  - rewrite lookup_insert_eq. intros [= <-].
    rewrite lookup_app_r, Nat.sub_diag by lia. eauto.
  - rewrite lookup_insert_ne by congruence. intros Hr.
    destruct (Hok sym r Hr) as [x Hx]. exists x.
    apply lookup_app_l_Some, Hx.
Qed.

End WithRiskLimits.

(** ** The risk manager on concrete inputs *)

(** An instance of the two methods the repository leaves out, to run the
    code with: the limit check accepts the units as they are and the tag is
    constant. *)
Definition accept_units : RiskManager -> float -> float -> string -> result float :=
  fun _ adjusted_units _ _ => Ok adjusted_units.
Definition constant_tag : RiskManager -> float -> result string :=
  fun _ _ => Ok "full".

Definition default_manager : RiskManager := RiskManager_init 100000 ∅.

Definition regime_of (trend volatility : string) : MarketRegime :=
  {| trend := trend; volatility := volatility; strength := 0.5; confidence := 0.9 |}.

Definition demo_signal : gmap string float :=
  list_to_map [ ("price", 100); ("stop_loss", 95); ("strength", 0.5); ("atr", 5) ].

(** The manager after one [open_position("AAPL", ...)]. *)
Definition opened_once : PositionManager :=
  match open_position accept_units constant_tag (PositionManager_init default_manager)
          0%Z 1%Z "AAPL" demo_signal (regime_of "NEUTRAL" "HIGH") with
  | Ok (_, self') => self'
  | Raise _ => PositionManager_init default_manager
  end.

Definition demo_ticks : list (float * float) := [ (110, 5); (90, 5); (120, 4) ].

Lemma regime_adjustment_documented_trend_witness :
  _get_regime_adjustment default_manager (regime_of "BULLISH" "LOW") = Ok 1.0.
Proof.
  apply (regime_adjustment_documented_trend default_manager (regime_of "BULLISH" "LOW")).
  - left. reflexivity.
  - discriminate.
Defined.

Lemma scenario_A_sizing_witness :
  sizing_locals (scenario_A_manager []) 50 48 0.5
    {| trend := "NORMAL"; volatility := "NORMAL"; strength := 0.5; confidence := 0.9 |}
  = Ok {| s_risk_amount := 2000;
          s_risk_per_share := 2;
          s_base_units := 1000;
          s_regime_factor := 1.0;
          s_signal_factor := 1.0;
          s_portfolio_factor := 1.2;
          s_adjusted_units := 1200 |}
  /\ calculate_position_size accept_units constant_tag (scenario_A_manager []) "AAPL"
       50 48 0.5
       {| trend := "NORMAL"; volatility := "NORMAL"; strength := 0.5; confidence := 0.9 |}
     = Ok {| units := 1200;
             value := 60000;
             risk_amount := 2000;
             risk_percent := 0.02;
             position_type := "full" |}.
Proof.
  destruct (scenario_A_sizing accept_units constant_tag [] 0 0.5 0.9) as [Hl Hc].
  - vm_compute. reflexivity.
  - vm_compute. reflexivity.
  - split; [ exact Hl | ]. rewrite Hc. vm_compute. reflexivity.
Defined.

Lemma risk_amount_independent_of_adjustments_witness :
  exists size,
    calculate_position_size accept_units constant_tag default_manager "AAPL" 50 48 0.9
      (regime_of "NEUTRAL" "HIGH") = Ok size
    /\ units size = 720
    /\ risk_amount size = 2000.
Proof.
  eexists. split; [ vm_compute; reflexivity | ]. split; [ reflexivity | ].
  destruct (risk_amount_independent_of_adjustments accept_units constant_tag
              default_manager "AAPL" 50 48 0.9 (regime_of "NEUTRAL" "HIGH") _
              ltac:(vm_compute; reflexivity))
    as (mps & bu & rf & pf & Hk & Hra & _).
  rewrite Hra. vm_compute in Hk. injection Hk as <-. vm_compute. reflexivity.
Defined.

Lemma zero_stop_distance_raises_witness :
  calculate_position_size accept_units constant_tag default_manager "AAPL" 50 50 0.5
    (regime_of "NEUTRAL" "NORMAL") = Raise ZeroDivisionError
  /\ py_lt (abs (50 - 50)) 0 = false.
Proof.
  apply (zero_stop_distance_raises accept_units constant_tag default_manager "AAPL"
           50 50 0.5 0.02 (regime_of "NEUTRAL" "NORMAL")).
  - vm_compute. reflexivity.
  - vm_compute. reflexivity.
Defined.

(** C5 as stated fails: with entry and stop both 50 the call raises the
    interpreter's ZeroDivisionError, out of the division itself; no
    InvalidStopDistance is raised. *)
Lemma zero_stop_distance_divides :
  calculate_position_size accept_units constant_tag default_manager "AAPL" 50 50 0.5
    (regime_of "NEUTRAL" "NORMAL")
  = Raise (Exn "ZeroDivisionError" "float division by zero")
  /\ py_truediv (capital default_manager * 0.02) (abs (50 - 50))
     = Raise (Exn "ZeroDivisionError" "float division by zero")
  /\ exn_class (Exn "ZeroDivisionError" "float division by zero") <> "InvalidStopDistance".
Proof.
  split; [ vm_compute; reflexivity | ]. split; [ vm_compute; reflexivity | ].
  discriminate.
Qed.

Lemma scenario_B_stop_levels_witness :
  calculate_stop_levels default_manager 0%Z 100 5 0.5 (regime_of "NEUTRAL" "HIGH")
  = Ok {| initial_stop := 85;
          trailing_stop := 85;
          breakeven_stop := 104.5;
          time_stop := (0 + timedelta_days 5)%Z;
          profit_stops := [122.5; 130; 145] |}
  /\ StronglySorted (fun a b => py_lt a b = true) [122.5; 130; 145].
Proof.
  apply (scenario_B_stop_levels default_manager 0%Z 0.5 (regime_of "NEUTRAL" "HIGH")).
  - vm_compute. reflexivity.
  - reflexivity.
Defined.

Lemma trailing_stop_ratchets_witness :
  trailing_stops_after opened_once "AAPL" demo_ticks = [100; 100; 112]
  /\ trailing_stop_of opened_once "AAPL" = Some 85.
Proof.
  split; [ | vm_compute; reflexivity ].
  destruct (objects opened_once !! 0%nat) as [position|] eqn:Hobj;
    [ | vm_compute in Hobj; discriminate Hobj ].
  destruct (trailing_stop_ratchets opened_once "AAPL" 0 position 2.0 demo_ticks
              ltac:(vm_compute; reflexivity) Hobj ltac:(vm_compute; reflexivity))
    as (Heq & _).
  rewrite Heq. vm_compute in Hobj. injection Hobj as <-. vm_compute. reflexivity.
Defined.

(** C8 as stated fails: a second [open_position] for a symbol that is
    active is not rejected; it returns, the registry entry of the symbol
    now refers to the new dict and the history has grown. *)
Lemma duplicate_open_is_accepted :
  positions opened_once !! "AAPL" = Some 0%nat
  /\ position_history opened_once = [0%nat]
  /\ exists self',
       open_position accept_units constant_tag opened_once 2%Z 3%Z "AAPL" demo_signal
         (regime_of "NEUTRAL" "HIGH") = Ok (1%nat, self')
       /\ positions self' !! "AAPL" = Some 1%nat
       /\ position_history self' = [0%nat; 1%nat].
Proof.
  split; [ vm_compute; reflexivity | ]. split; [ vm_compute; reflexivity | ].
  eexists. split; [ vm_compute; reflexivity | ].
  split; vm_compute; reflexivity.
Qed.

End Risk.

Module Execution.

Inductive OrderType : Type := MARKET | LIMIT | STOP | STOP_LIMIT | TRAILING_STOP.

Inductive OrderStatus : Type :=
  PENDING | SUBMITTED | PARTIAL | FILLED | CANCELLED | REJECTED.

(** What the [order_type] field holds.  The dataclass annotation is not
    enforced at run time: the field is a member of [OrderType] or some other
    value, such as the string a strategy dict carries. *)
Inductive order_type_value : Type :=
| Member (t : OrderType)
| Other (v : string).

Record Order : Type := {
  symbol : string;
  order_type : order_type_value;
  side : string;
  quantity : float;
  price : option float;
  stop_price : option float;
  time_in_force : string;
  order_id : string;
  status : OrderStatus;
  filled_quantity : float;
  average_fill_price : float;
  commission : float;
  notes : string
}.

Definition with_status (s : OrderStatus) (o : Order) : Order :=
  {| symbol := symbol o;
     order_type := order_type o;
     side := side o;
     quantity := quantity o;
     price := price o;
     stop_price := stop_price o;
     time_in_force := time_in_force o;
     order_id := order_id o;
     status := s;
     filled_quantity := filled_quantity o;
     average_fill_price := average_fill_price o;
     commission := commission o;
     notes := notes o |}.

Definition ValueError (msg : string) : exn := Exn "ValueError" msg.
Definition AttributeError (attr : string) : exn := Exn "AttributeError" attr.

(** [status in [FILLED, CANCELLED, REJECTED]]. *)
Definition is_terminal (s : OrderStatus) : bool :=
  match s with
  | FILLED | CANCELLED | REJECTED => true
  | PENDING | SUBMITTED | PARTIAL => false
  end.

Definition is_partial (s : OrderStatus) : bool :=
  match s with
  | PARTIAL => true
  | _ => false
  end.

Section WithBroker.

(** The state of the broker connection, whatever it is. *)
Variable Broker : Type.

(** [Order] objects are shared: the two registries of the order manager, the
    broker and the monitoring loop refer to the same objects.  [heap] holds
    the objects, a reference is an index into it; a reference outside the
    heap stands for a value that is not an [Order].  [log] collects the
    messages given to [logger.error]. *)
Record World : Type := {
  heap : list Order;
  orders : gmap string nat;
  filled_orders : gmap string nat;
  active_orders : gmap string nat;
  log : list string;
  broker : Broker
}.

(** The broker capability ([BrokerConnection] is abstract).  A call sees the
    broker's state and the objects, may change both, and returns or raises. *)
Variable broker_submit_order :
  Broker -> list Order -> nat -> result nat * (Broker * list Order).
Variable broker_cancel_order :
  Broker -> list Order -> string -> result bool * (Broker * list Order).

(** [value in OrderType] for a value that is not a member: the answer
    depends on the interpreter version (a membership test against the member
    values from 3.12 on, a TypeError before), so it is taken as given. *)
Variable non_member_in_OrderType : string -> result bool.

(** A computation of the engine: it may read and change the world, and
    returns or raises; the changes made before a raise stay. *)
Definition M (A : Type) : Type := World -> result A * World.

Definition ret {A : Type} (a : A) : M A := fun w => (Ok a, w).
Definition raise {A : Type} (e : exn) : M A := fun w => (Raise e, w).

Definition bind {A B : Type} (m : M A) (k : A -> M B) : M B :=
  fun w =>
    match m w with
    | (Ok a, w') => k a w'
    | (Raise e, w') => (Raise e, w')
    end.

(** [try: body / except Exception as e: handler(e)]; an exception raised by
    the handler replaces the one it handles. *)
Definition try_except {A : Type} (body : M A) (handler : exn -> M A) : M A :=
  fun w =>
    match body w with
    | (Ok a, w') => (Ok a, w')
    | (Raise e, w') => handler e w'
    end.

Definition lift {A : Type} (r : result A) : M A := fun w => (r, w).

Declare Scope m_scope.
Delimit Scope m_scope with M.
Notation "x <- m ;; k" := (bind m (fun x => k))
  (at level 100, m at next level, right associativity) : m_scope.
Notation "m ;; k" := (bind m (fun _ => k))
  (at level 100, right associativity) : m_scope.
Local Open Scope m_scope.

(** The world after [logger.error(msg)]. *)
Definition with_log (msg : string) (w : World) : World :=
  {| heap := heap w; orders := orders w; filled_orders := filled_orders w;
     active_orders := active_orders w; log := log w ++ [msg]; broker := broker w |}.

Definition logger_error (msg : string) : M unit :=
  fun w => (Ok tt, with_log msg w).

(** Reading an attribute of the object behind a reference. *)
Definition getattr {A : Type} (attr : string) (field : Order -> A) (ref : nat) : M A :=
  fun w =>
    match heap w !! ref with
    | Some o => (Ok (field o), w)
    | None => (Raise (AttributeError attr), w)
    end.

(** [obj.status = s]; it changes no [Order] when [ref] is not one. *)
Definition set_status (ref : nat) (s : OrderStatus) : M unit :=
  fun w =>
    (Ok tt,
     {| heap := alter (with_status s) ref (heap w); orders := orders w;
        filled_orders := filled_orders w; active_orders := active_orders w;
        log := log w; broker := broker w |}).

Definition call_broker_submit (order : nat) : M nat :=
  fun w =>
    let '(r, (b, h)) := broker_submit_order (broker w) (heap w) order in
    (r, {| heap := h; orders := orders w; filled_orders := filled_orders w;
           active_orders := active_orders w; log := log w; broker := b |}).

Definition call_broker_cancel (order_id : string) : M bool :=
  fun w =>
    let '(r, (b, h)) := broker_cancel_order (broker w) (heap w) order_id in
    (r, {| heap := h; orders := orders w; filled_orders := filled_orders w;
           active_orders := active_orders w; log := log w; broker := b |}).

Definition set_orders (order_id : string) (ref : nat) : M unit :=
  fun w =>
    (Ok tt,
     {| heap := heap w; orders := <[order_id := ref]> (orders w);
        filled_orders := filled_orders w; active_orders := active_orders w;
        log := log w; broker := broker w |}).

Definition set_active_orders (order_id : string) (ref : nat) : M unit :=
  fun w =>
    (Ok tt,
     {| heap := heap w; orders := orders w; filled_orders := filled_orders w;
        active_orders := <[order_id := ref]> (active_orders w);
        log := log w; broker := broker w |}).

Definition del_active_orders (order_id : string) : M unit :=
  fun w =>
    (Ok tt,
     {| heap := heap w; orders := orders w; filled_orders := filled_orders w;
        active_orders := delete order_id (active_orders w);
        log := log w; broker := broker w |}).

Definition get_orders (order_id : string) : M nat :=
  fun w => (py_getitem (orders w) order_id, w).

(** ** OrderManager *)

(** [OrderManager.__init__]: the three registries start empty.  The method
    assigns neither [self.broker] nor [self.logger], which [submit_order]
    and [cancel_order] read; they are the broker and the log of the world,
    attached to the manager by its owner and left as they are here. *)
Definition OrderManager_init (w : World) : World :=
  {| heap := heap w; orders := ∅; filled_orders := ∅; active_orders := ∅;
     log := log w; broker := broker w |}.

Definition in_OrderType (v : order_type_value) : result bool :=
  match v with
  | Member _ => Ok true
  | Other v => non_member_in_OrderType v
  end.

Definition _validate_order (order : Order) : result unit :=
  if String.eqb (symbol order) "" || PrimFloat.eqb (quantity order) 0%float then
    Raise (ValueError "Invalid order parameters")
  else
    rbind (in_OrderType (order_type order)) (fun known =>
      if negb known then Raise (ValueError "Invalid order type") else Ok tt).

Definition submit_order (order : nat) : M nat :=
  try_except
    (o <- getattr "symbol" (fun o => o) order ;;
     lift (_validate_order o) ;;
     submitted_order <- call_broker_submit order ;;
     submitted_id <- getattr "order_id" order_id submitted_order ;;
     set_orders submitted_id submitted_order ;;
     set_active_orders submitted_id submitted_order ;;
     ret submitted_order)
    (fun e =>
       logger_error (String.append "Order submission error: " (exn_msg e)) ;;
       raise e).

Definition cancel_order (order_id : string) : M bool :=
  try_except
    (fun w =>
       match active_orders w !! order_id with
       | Some _ =>
           (call_broker_cancel order_id ;;
            del_active_orders order_id ;;
            ref <- get_orders order_id ;;
            set_status ref CANCELLED ;;
            ret true) w
       | None => ret false w
       end)
    (fun e =>
       logger_error (String.append "Order cancellation error: " (exn_msg e)) ;;
       raise e).

(** ** ExecutionEngine._monitor_execution *)

(** [OrderManager.get_order_status] and [_handle_partial_fill] are called
    by the loop but defined nowhere in the repository; they are taken as
    given.  [asyncio_sleep] is what the rest of the system does to the world
    while the coroutine is suspended. *)
Variable get_order_status : string -> M nat.
Variable _handle_partial_fill : nat -> M unit.
Variable asyncio_sleep : World -> World.

(** How the [while] loop ends: by [return order], by an exception, raised
    while the local [order] had the given value, or not yet. *)
Inductive loop_exit : Type :=
| Returned (order : nat)
| Faulted (e : exn) (order : nat)
| StillPolling (order : nat).

(** The loop, for at most [fuel] polls. *)
Fixpoint monitor_loop (fuel : nat) (order : nat) (w : World) : loop_exit * World :=
  match heap w !! order with
  | None => (Faulted (AttributeError "status") order, w)
  | Some o =>
      if is_terminal (status o) then (Returned order, w)
      else
        match fuel with
        | O => (StillPolling order, w)
        | S fuel' =>
            match get_order_status (order_id o) w with
            | (Raise e, w1) => (Faulted e order, w1)
            | (Ok order', w1) =>
                match heap w1 !! order' with
                | None => (Faulted (AttributeError "status") order', w1)
                | Some o' =>
                    match (if is_partial (status o') then _handle_partial_fill order'
                           else ret tt) w1 with
                    | (Raise e, w2) => (Faulted e order', w2)
                    | (Ok _, w2) => monitor_loop fuel' order' (asyncio_sleep w2)
                    end
                end
            end
        end
  end.

(** The [except] clause of [_monitor_execution]. *)
Definition monitoring_fault (e : exn) (order : nat) : M nat :=
  logger_error (String.append "Order monitoring error: " (exn_msg e)) ;;
  current_id <- getattr "order_id" order_id order ;;
  cancel_order current_id ;;
  raise e.

(** [None]: the order is not terminal after [fuel] polls. *)
Definition _monitor_execution (fuel : nat) (order : nat) (w : World)
  : option (result nat * World) :=
  match monitor_loop fuel order w with
  | (Returned order', w') => Some (Ok order', w')
  | (Faulted e order', w') => Some (monitoring_fault e order' w')
  | (StillPolling _, _) => None
  end.

(** The status recorded for [order_id] in the full registry. *)
Definition status_of (w : World) (order_id : string) : option OrderStatus :=
  ref ← orders w !! order_id;
  o ← heap w !! ref;
  Some (status o).

(** ** Properties of the order manager *)

Lemma negative_is_not_zero (q : float) :
  py_lt q 0%float = true -> PrimFloat.eqb q 0%float = false.
Proof.
  unfold py_lt. rewrite FloatAxioms.ltb_spec, FloatAxioms.eqb_spec.
  unfold SFltb, SFeqb. destruct (SFcompare _ _) as [[]|]; congruence.
Qed.

(** What [cancel_order] does with an active order id. *)
Lemma cancel_order_active (order_id : string) (w : World) (held : nat) :
  active_orders w !! order_id = Some held ->
  cancel_order order_id w =
    match broker_cancel_order (broker w) (heap w) order_id with
    | (Raise e, (b, h)) =>
        (Raise e,
         with_log (String.append "Order cancellation error: " (exn_msg e))
           {| heap := h; orders := orders w; filled_orders := filled_orders w;
              active_orders := active_orders w; log := log w; broker := b |})
    | (Ok _, (b, h)) =>
        match orders w !! order_id with
        | Some ref =>
            (Ok true,
             {| heap := alter (with_status CANCELLED) ref h; orders := orders w;
                filled_orders := filled_orders w;
                active_orders := delete order_id (active_orders w);
                log := log w; broker := b |})
        | None =>
            (Raise (KeyError order_id),
             with_log
               (String.append "Order cancellation error: " (exn_msg (KeyError order_id)))
               {| heap := h; orders := orders w; filled_orders := filled_orders w;
                  active_orders := delete order_id (active_orders w);
                  log := log w; broker := b |})
        end
    end.
Proof.
  intros Ha. unfold cancel_order, try_except. rewrite Ha.
  unfold bind, call_broker_cancel.
  destruct (broker_cancel_order (broker w) (heap w) order_id) as [[ok|e] [b h]].
  - cbn. unfold py_getitem. destruct (orders w !! order_id) as [ref|]; reflexivity.
  - reflexivity.
Qed.

(** C2, as the code has it: [cancel_order] looks at the active set only,
    never at the status.  For an id that is not active it returns False and
    changes nothing, without a call to the broker; after a cancel that
    returned True the id is no longer active, its registry entry is
    CANCELLED, and every further cancel returns False and changes nothing. *)
Theorem cancel_order_inactive (order_id : string) (w : World) :
  (active_orders w !! order_id = None -> cancel_order order_id w = (Ok false, w))
  /\ (forall w',
        cancel_order order_id w = (Ok true, w') ->
        active_orders w' !! order_id = None
        /\ cancel_order order_id w' = (Ok false, w')
        /\ exists ref,
             orders w' !! order_id = Some ref
             /\ forall o, heap w' !! ref = Some o -> status o = CANCELLED).
Proof.
  assert (Hnone : forall w0, active_orders w0 !! order_id = None ->
                             cancel_order order_id w0 = (Ok false, w0)).
  { intros w0 H0. unfold cancel_order, try_except. rewrite H0. reflexivity. }
  split; [ apply Hnone | ].
  intros w' H. destruct (active_orders w !! order_id) as [held|] eqn:Ha.
  - rewrite (cancel_order_active order_id w held Ha) in H.
    destruct (broker_cancel_order (broker w) (heap w) order_id) as [[ok|e] [b h]];
      [ | discriminate H ].
    destruct (orders w !! order_id) as [ref|] eqn:Ho; [ | discriminate H ].
    injection H as <-. cbn [active_orders orders heap].
    assert (Hd : delete order_id (active_orders w) !! order_id = None)
      by apply lookup_delete_eq.
    split; [ exact Hd | ]. split; [ apply Hnone; exact Hd | ].
    exists ref. split; [ exact Ho | ].
    intros o Hl. rewrite list_lookup_alter_eq in Hl.
    destruct (h !! ref) as [o0|]; cbn in Hl; [ | discriminate Hl ].
    injection Hl as <-. reflexivity.
  - rewrite (Hnone w Ha) in H. discriminate H.
Qed.

(** C9, as the code has it: validation rejects an empty symbol and a
    quantity equal to zero, and nothing else about the two: with a symbol
    and a quantity other than zero, positive, negative or NaN, the outcome
    is decided by the order type alone.  A member of [OrderType] is
    accepted; any other value is accepted, rejected with 'Invalid order
    type' or makes the test itself raise, as the interpreter answers
    [value in OrderType].  Validation accepts in no other case.  A rejected
    order is logged and re-raised with no call to the broker; an accepted
    one that the broker returns is put in both registries under the id the
    broker gave it. *)
Theorem submit_order_checks (order : nat) (o : Order) (w : World) :
  heap w !! order = Some o ->
  (symbol o = "" \/ PrimFloat.eqb (quantity o) 0%float = true ->
   _validate_order o = Raise (ValueError "Invalid order parameters"))
  /\ (forall v,
        symbol o <> "" -> PrimFloat.eqb (quantity o) 0%float = false ->
        order_type o = Other v -> non_member_in_OrderType v = Ok false ->
        _validate_order o = Raise (ValueError "Invalid order type"))
  /\ (forall v,
        symbol o <> "" -> PrimFloat.eqb (quantity o) 0%float = false ->
        order_type o = Other v ->
        _validate_order o
        = match non_member_in_OrderType v with
          | Ok true => Ok tt
          | Ok false => Raise (ValueError "Invalid order type")
          | Raise e => Raise e
          end)
  /\ (forall t,
        symbol o <> "" -> PrimFloat.eqb (quantity o) 0%float = false ->
        order_type o = Member t ->
        _validate_order o = Ok tt)
  /\ (forall t,
        symbol o <> "" -> py_lt (quantity o) 0%float = true ->
        order_type o = Member t ->
        _validate_order o = Ok tt)
  /\ (_validate_order o = Ok tt ->
      symbol o <> "" /\ PrimFloat.eqb (quantity o) 0%float = false
      /\ in_OrderType (order_type o) = Ok true)
  /\ (forall e,
        _validate_order o = Raise e ->
        submit_order order w
        = (Raise e, with_log (String.append "Order submission error: " (exn_msg e)) w))
  /\ (forall submitted b h o',
        _validate_order o = Ok tt ->
        broker_submit_order (broker w) (heap w) order = (Ok submitted, (b, h)) ->
        h !! submitted = Some o' ->
        submit_order order w
        = (Ok submitted,
           {| heap := h;
              orders := <[order_id o' := submitted]> (orders w);
              filled_orders := filled_orders w;
              active_orders := <[order_id o' := submitted]> (active_orders w);
              log := log w;
              broker := b |}))
  /\ (forall t submitted b h o',
        symbol o <> "" -> PrimFloat.eqb (quantity o) 0%float = false ->
        order_type o = Member t ->
        broker_submit_order (broker w) (heap w) order = (Ok submitted, (b, h)) ->
        h !! submitted = Some o' ->
        submit_order order w
        = (Ok submitted,
           {| heap := h;
              orders := <[order_id o' := submitted]> (orders w);
              filled_orders := filled_orders w;
              active_orders := <[order_id o' := submitted]> (active_orders w);
              log := log w;
              broker := b |})).
Proof.
  intros Hobj.
  assert (Hother : forall v,
             symbol o <> "" -> PrimFloat.eqb (quantity o) 0%float = false ->
             order_type o = Other v ->
             _validate_order o
             = match non_member_in_OrderType v with
               | Ok true => Ok tt
               | Ok false => Raise (ValueError "Invalid order type")
               | Raise e => Raise e
               end).
  { intros v Hs Hq Ht. unfold _validate_order, in_OrderType.
    destruct (String.eqb_spec (symbol o) ""); [ contradiction | ].
    rewrite Hq, Ht. cbn [orb].
    destruct (non_member_in_OrderType v) as [[|]|e]; reflexivity. }
  assert (Hmember : forall t,
             symbol o <> "" -> PrimFloat.eqb (quantity o) 0%float = false ->
             order_type o = Member t -> _validate_order o = Ok tt).
  { intros t Hs Hq Ht. unfold _validate_order, in_OrderType.
    destruct (String.eqb_spec (symbol o) ""); [ contradiction | ].
    rewrite Hq, Ht. reflexivity. }
  assert (Hregistered : forall submitted b h o',
             _validate_order o = Ok tt ->
             broker_submit_order (broker w) (heap w) order = (Ok submitted, (b, h)) ->
             h !! submitted = Some o' ->
             submit_order order w
             = (Ok submitted,
                {| heap := h;
                   orders := <[order_id o' := submitted]> (orders w);
                   filled_orders := filled_orders w;
                   active_orders := <[order_id o' := submitted]> (active_orders w);
                   log := log w;
                   broker := b |})).
  { intros submitted b h o' Hv Hb Hh.
    unfold submit_order, try_except, bind, getattr, lift, call_broker_submit.
    rewrite Hobj, Hv, Hb. cbn. rewrite Hh. reflexivity. }
  split; [ | split; [ | split; [ | split; [ | split; [ | split; [ | split;
    [ | split ] ] ] ] ] ] ].
  - intros [Hs | Hq]; unfold _validate_order.
    + rewrite Hs. reflexivity.
    + rewrite Hq, orb_true_r. reflexivity.
  - intros v Hs Hq Ht Hv. rewrite (Hother v Hs Hq Ht), Hv. reflexivity.
  - exact Hother.
  - exact Hmember.
  - intros t Hs Hq Ht. apply (Hmember t Hs (negative_is_not_zero _ Hq) Ht).
  - unfold _validate_order. intros Hv.
    destruct (String.eqb_spec (symbol o) "") as [|Hs]; [ discriminate Hv | ].
    destruct (PrimFloat.eqb (quantity o) 0%float); [ discriminate Hv | ].
    cbn [orb] in Hv. split; [ exact Hs | ]. split; [ reflexivity | ].
    destruct (in_OrderType (order_type o)) as [[|]|e]; cbn in Hv;
      [ reflexivity | discriminate Hv | discriminate Hv ].
  - intros e He. unfold submit_order, try_except, bind, getattr, lift.
    rewrite Hobj, He. reflexivity.
  - exact Hregistered.
  - intros t submitted b h o' Hs Hq Ht. apply Hregistered, (Hmember t Hs Hq Ht).
Qed.

(** ** Properties of the monitoring loop *)

(** C6, as the code has it: when the loop faults, the fault is logged and
    a cancel of the current order is attempted.  If that cancel returns, the
    original fault is raised; if the order was active and the broker
    cancelled it, it ends CANCELLED and out of the active set.  If the
    cancel itself raises, that exception is the one raised, in place of the
    original fault. *)
Theorem monitoring_fault_outcome (fuel order current : nat) (o : Order)
    (e : exn) (w w1 : World) :
  monitor_loop fuel order w = (Faulted e current, w1) ->
  heap w1 !! current = Some o ->
  (forall returned w2,
     cancel_order (order_id o)
       (with_log (String.append "Order monitoring error: " (exn_msg e)) w1)
     = (Ok returned, w2) ->
     _monitor_execution fuel order w = Some (Raise e, w2)
     /\ (returned = true ->
         active_orders w2 !! order_id o = None
         /\ exists ref,
              orders w2 !! order_id o = Some ref
              /\ forall o2, heap w2 !! ref = Some o2 -> status o2 = CANCELLED))
  /\ (forall held ref ok b h,
        active_orders w1 !! order_id o = Some held ->
        orders w1 !! order_id o = Some ref ->
        broker_cancel_order (broker w1) (heap w1) (order_id o) = (Ok ok, (b, h)) ->
        _monitor_execution fuel order w
        = Some (Raise e,
                {| heap := alter (with_status CANCELLED) ref h;
                   orders := orders w1; filled_orders := filled_orders w1;
                   active_orders := delete (order_id o) (active_orders w1);
                   log := log w1
                          ++ [String.append "Order monitoring error: " (exn_msg e)];
                   broker := b |}))
  /\ (forall e' w2,
        cancel_order (order_id o)
          (with_log (String.append "Order monitoring error: " (exn_msg e)) w1)
        = (Raise e', w2) ->
        _monitor_execution fuel order w = Some (Raise e', w2))
  /\ (forall held e' b h,
        active_orders w1 !! order_id o = Some held ->
        broker_cancel_order (broker w1) (heap w1) (order_id o) = (Raise e', (b, h)) ->
        _monitor_execution fuel order w
        = Some (Raise e',
                {| heap := h; orders := orders w1; filled_orders := filled_orders w1;
                   active_orders := active_orders w1;
                   log := log w1
                          ++ [String.append "Order monitoring error: " (exn_msg e)]
                          ++ [String.append "Order cancellation error: " (exn_msg e')];
                   broker := b |})).
Proof.
  intros Hloop Hcur.
  assert (Hrun : _monitor_execution fuel order w
                 = Some (match cancel_order (order_id o)
                                 (with_log (String.append "Order monitoring error: "
                                              (exn_msg e)) w1) with
                         | (Ok _, w2) => (Raise e, w2)
                         | (Raise e', w2) => (Raise e', w2)
                         end)).
  { unfold _monitor_execution. rewrite Hloop.
    unfold monitoring_fault, bind, logger_error, getattr, raise.
    cbn [heap with_log]. rewrite Hcur. reflexivity. }
  split; [ | split; [ | split ] ].
  - intros returned w2 Hc. rewrite Hrun, Hc. split; [ reflexivity | ].
    intros ->. destruct (cancel_order_inactive (order_id o)
                 (with_log (String.append "Order monitoring error: " (exn_msg e)) w1))
      as [_ Hafter].
    destruct (Hafter w2 Hc) as (Hna & _ & Hreg). split; [ exact Hna | exact Hreg ].
  - intros held ref ok b h Ha Ho Hb. rewrite Hrun.
    rewrite (cancel_order_active (order_id o) _ held) by exact Ha.
    cbn [broker heap orders with_log]. rewrite Hb, Ho. reflexivity.
  - intros e' w2 Hc. rewrite Hrun, Hc. reflexivity.
  - intros held e' b h Ha Hb. rewrite Hrun.
    rewrite (cancel_order_active (order_id o) _ held) by exact Ha.
    cbn [broker heap with_log]. rewrite Hb. unfold with_log. cbn.
    rewrite <- app_assoc. reflexivity.
Qed.

End WithBroker.

Arguments heap {Broker} _.
Arguments orders {Broker} _.
Arguments filled_orders {Broker} _.
Arguments active_orders {Broker} _.
Arguments log {Broker} _.
Arguments broker {Broker} _.
Arguments status_of {Broker} _ _.

(** ** The engine on concrete inputs *)

(** A broker to run the code with.  Its state says whether the connection
    is up.  While it is up, [submit_order] hands the same object back with
    the given status and [cancel_order] returns True; while it is down both
    raise. *)
Definition unreachable : exn := Exn "ConnectionError" "broker unreachable".

Definition demo_submit (reported : OrderStatus)
  : bool -> list Order -> nat -> result nat * (bool * list Order) :=
  fun up objects order =>
    if up then (Ok order, (up, alter (with_status reported) order objects))
    else (Raise unreachable, (up, objects)).

Definition demo_cancel : bool -> list Order -> string -> result bool * (bool * list Order) :=
  fun up objects _ =>
    if up then (Ok true, (up, objects)) else (Raise unreachable, (up, objects)).

(** Membership of a non-member as the interpreter decides it from 3.12 on:
    by the values of the members. *)
Definition member_values (v : string) : result bool :=
  Ok (existsb (String.eqb v) ["MARKET"; "LIMIT"; "STOP"; "STOP_LIMIT"; "TRAILING_STOP"]).

(** Two status feeds that fail: one times out, one finds the connection
    lost and leaves the broker down. *)
Definition timing_out_feed : string -> M bool nat :=
  fun _ => raise bool (Exn "TimeoutError" "status feed timed out").

Definition dropping_feed : string -> M bool nat :=
  fun _ w =>
    (Raise (Exn "ConnectionError" "connection lost"),
     {| heap := heap w; orders := orders w; filled_orders := filled_orders w;
        active_orders := active_orders w; log := log w; broker := false |}).

Definition no_hook : nat -> M bool unit := fun _ => ret bool tt.
Definition no_sleep : World bool -> World bool := fun w => w.

(** The order that [_create_and_submit_order] builds, with a given quantity. *)
Definition demo_order (quantity : float) : Order :=
  {| symbol := "AAPL";
     order_type := Member MARKET;
     side := "BUY";
     quantity := quantity;
     price := None;
     stop_price := None;
     time_in_force := "DAY";
     order_id := "ord-1";
     status := PENDING;
     filled_quantity := 0;
     average_fill_price := 0;
     commission := 0;
     notes := "" |}.

(** A fresh order manager, the broker up, and one new [Order] object. *)
Definition world_with (o : Order) : World bool :=
  {| heap := [o]; orders := ∅; filled_orders := ∅; active_orders := ∅;
     log := []; broker := true |}.

(** The world after [submit_order] of that order, the broker reporting the
    given status. *)
Definition submitted_world (reported : OrderStatus) : World bool :=
  snd (submit_order bool (demo_submit reported) member_values 0
         (world_with (demo_order 10))).

(** C2 as stated fails: an order that the broker reported FILLED is in the
    active set; [cancel_order] returns True for it and its status becomes
    CANCELLED. *)
Lemma cancel_of_filled_order_returns_true :
  status_of (submitted_world FILLED) "ord-1" = Some FILLED
  /\ active_orders (submitted_world FILLED) !! "ord-1" = Some 0%nat
  /\ exists w',
       cancel_order bool demo_cancel "ord-1" (submitted_world FILLED) = (Ok true, w')
       /\ status_of w' "ord-1" = Some CANCELLED.
Proof.
  split; [ vm_compute; reflexivity | ]. split; [ vm_compute; reflexivity | ].
  eexists. split; vm_compute; reflexivity.
Qed.

Lemma submit_order_checks_witness :
  _validate_order member_values (demo_order 0)
  = Raise (ValueError "Invalid order parameters")
  /\ _validate_order member_values (demo_order 10) = Ok tt
  /\ submit_order bool (demo_submit SUBMITTED) member_values 0
       (world_with (demo_order 10))
     = (Ok 0%nat,
        {| heap := [with_status SUBMITTED (demo_order 10)];
           orders := <["ord-1" := 0%nat]> ∅;
           filled_orders := ∅;
           active_orders := <["ord-1" := 0%nat]> ∅;
           log := [];
           broker := true |}).
Proof.
  split; [ | split ].
  - apply (submit_order_checks bool (demo_submit SUBMITTED) member_values 0
             (demo_order 0) (world_with (demo_order 0)) eq_refl).
    right. reflexivity.
  - destruct (submit_order_checks bool (demo_submit SUBMITTED) member_values 0
                (demo_order 10) (world_with (demo_order 10)) eq_refl)
      as (_ & _ & _ & Haccepted & _).
    apply (Haccepted MARKET); [ discriminate | reflexivity | reflexivity ].
  - destruct (submit_order_checks bool (demo_submit SUBMITTED) member_values 0
                (demo_order 10) (world_with (demo_order 10)) eq_refl)
      as (_ & _ & _ & _ & _ & _ & _ & _ & Hregistered).
    apply (Hregistered MARKET 0%nat true [with_status SUBMITTED (demo_order 10)]
             (with_status SUBMITTED (demo_order 10)));
      [ discriminate | reflexivity | reflexivity | reflexivity | reflexivity ].
Defined.

(** C9 as stated fails: a quantity of -5 is not greater than 0, yet the
    order passes validation, is handed to the broker and is registered. *)
Lemma negative_quantity_is_submitted :
  py_gt (-5)%float 0%float = false
  /\ _validate_order member_values (demo_order (-5)) = Ok tt
  /\ exists w',
       submit_order bool (demo_submit SUBMITTED) member_values 0
         (world_with (demo_order (-5))) = (Ok 0%nat, w')
       /\ orders w' !! "ord-1" = Some 0%nat
       /\ active_orders w' !! "ord-1" = Some 0%nat.
Proof.
  split; [ reflexivity | ]. split; [ reflexivity | ].
  eexists. split; [ vm_compute; reflexivity | ]. split; vm_compute; reflexivity.
Qed.

Lemma monitoring_fault_outcome_witness :
  status_of (submitted_world SUBMITTED) "ord-1" = Some SUBMITTED
  /\ exists w2,
       _monitor_execution bool demo_cancel timing_out_feed no_hook no_sleep 5 0
         (submitted_world SUBMITTED)
       = Some (Raise (Exn "TimeoutError" "status feed timed out"), w2)
       /\ status_of w2 "ord-1" = Some CANCELLED
       /\ active_orders w2 !! "ord-1" = None.
Proof.
  split; [ vm_compute; reflexivity | ].
  destruct (monitoring_fault_outcome bool demo_cancel timing_out_feed no_hook
              no_sleep 5 0 0 (with_status SUBMITTED (demo_order 10))
              (Exn "TimeoutError" "status feed timed out")
              (submitted_world SUBMITTED) (submitted_world SUBMITTED))
    as (_ & Hcancelled & _).
  - vm_compute. reflexivity.
  - vm_compute. reflexivity.
  - eexists. split.
    + apply (Hcancelled 0%nat 0%nat true true (heap (submitted_world SUBMITTED)));
        vm_compute; reflexivity.
    + split; vm_compute; reflexivity.
Defined.

(** C6 as stated fails: the status feed finds the connection lost, the
    compensating cancel then fails at the broker, and the caller gets the
    failure of the cancel, not the original fault; the order is left
    SUBMITTED and active. *)
Lemma cancel_failure_replaces_fault :
  status_of (submitted_world SUBMITTED) "ord-1" = Some SUBMITTED
  /\ fst (monitor_loop bool dropping_feed no_hook no_sleep 5 0 (submitted_world SUBMITTED))
     = Faulted (Exn "ConnectionError" "connection lost") 0
  /\ exists w2,
       _monitor_execution bool demo_cancel dropping_feed no_hook no_sleep 5 0
         (submitted_world SUBMITTED)
       = Some (Raise (Exn "ConnectionError" "broker unreachable"), w2)
       /\ status_of w2 "ord-1" = Some SUBMITTED
       /\ active_orders w2 !! "ord-1" = Some 0%nat
       /\ log w2 = [ "Order monitoring error: connection lost";
                     "Order cancellation error: broker unreachable" ].
Proof.
  split; [ vm_compute; reflexivity | ]. split; [ vm_compute; reflexivity | ].
  eexists. split; [ vm_compute; reflexivity | ].
  split; [ vm_compute; reflexivity | ]. split; vm_compute; reflexivity.
Qed.

End Execution.

(** * The rest of the position manager: closing, and how the operations compose *)

Module Lifecycle.

Import Risk.
Local Open Scope float_scope.
Local Open Scope result_scope.

(** The keys that [close_position] writes on a position dict.  [realized_pl]
    is absent when the computation of its value raised. *)
Record Exit : Type := {
  exit_time : datetime;
  exit_reason : string;
  realized_pl : option float
}.

(** A position manager together with the exit keys of its dicts, kept by
    reference beside the store. *)
Record Ledger : Type := {
  book : PositionManager;
  exits : gmap nat Exit
}.

(** [position = self.positions.pop(symbol)]. *)
Definition popped (self : PositionManager) (symbol : string) : PositionManager :=
  {| risk_manager := risk_manager self;
     objects := objects self;
     positions := delete symbol (positions self);
     position_history := position_history self |}.

Definition appended (self : PositionManager) (ref : nat) : PositionManager :=
  {| risk_manager := risk_manager self;
     objects := objects self;
     positions := positions self;
     position_history := position_history self ++ [ref] |}.

(** [close_position]; [now] is the reading of [datetime.now()].  The
    writes made before an exception stay, so the ledger is returned in both
    cases. *)
Definition close_position (self : Ledger) (now : datetime) (symbol reason : string)
  : result (option nat) * Ledger :=
  match positions (book self) !! symbol with
  | None => (Ok None, self)
  | Some ref =>
      let book1 := popped (book self) symbol in
      let stamped := {| exit_time := now; exit_reason := reason; realized_pl := None |} in
      match objects (book self) !! ref with
      | Some position =>
          match p_current_price position with
          | Some current_price =>
              let pl :=
                (current_price - p_entry_price position) * units (p_size position) in
              (Ok (Some ref),
               {| book := appended book1 ref;
                  exits :=
                    <[ref := {| exit_time := now; exit_reason := reason;
                                realized_pl := Some pl |}]> (exits self) |})
          | None =>
              (Raise (KeyError "current_price"),
               {| book := book1; exits := <[ref := stamped]> (exits self) |})
          end
      | None =>
          (Raise (Exn "ReferenceError" symbol),
           {| book := book1; exits := <[ref := stamped]> (exits self) |})
      end
  end.

(** No two symbols of the registry share a dict. *)
Definition registry_inj (self : PositionManager) : Prop :=
  forall (symbol symbol' : string) (ref : nat),
    positions self !! symbol = Some ref ->
    positions self !! symbol' = Some ref ->
    symbol = symbol'.

Section WithRiskLimits.

Variable _verify_risk_limits : RiskManager -> float -> float -> string -> result float.
Variable _get_position_type : RiskManager -> float -> result string.

(** What a successful [open_position] stored. *)
Lemma open_position_stored (self : PositionManager) (now_stops now_entry : datetime)
    (symbol : string) (signal : gmap string float) (market_regime : MarketRegime)
    (ref : nat) (self' : PositionManager) :
  Risk.open_position _verify_risk_limits _get_position_type self now_stops now_entry
    symbol signal market_regime = Ok (ref, self') ->
  exists price atr stops size,
    py_getitem signal "price" = Ok price /\
    py_getitem signal "atr" = Ok atr /\
    ref = length (objects self) /\
    risk_manager self' = risk_manager self /\
    positions self' = <[symbol := ref]> (positions self) /\
    position_history self' = position_history self ++ [ref] /\
    objects self' !! ref
    = Some {| p_symbol := symbol;
              p_entry_price := price;
              p_size := size;
              p_stops := stops;
              p_entry_time := now_entry;
              p_signal := signal;
              p_market_regime := market_regime;
              p_current_price := None;
              p_unrealized_pl := None |} /\
    trailing_stop stops = price - atr * 3.
Proof.
  unfold Risk.open_position. intros H.
  destruct (py_getitem signal "price") as [price|] eqn:Hp; [ | discriminate H ].
  destruct (py_getitem signal "stop_loss") as [stop_loss|]; [ | discriminate H ].
  destruct (py_getitem signal "strength") as [strength|]; [ | discriminate H ].
  cbn [rbind] in H.
  destruct (calculate_position_size _ _ _ _ _ _ _ _) as [size|]; [ | discriminate H ].
  destruct (py_getitem signal "atr") as [atr|] eqn:Ha; [ | discriminate H ].
  cbn [rbind] in H.
  destruct (calculate_stop_levels _ _ _ _ _ _) as [stops|] eqn:Hs; [ | discriminate H ].
  cbn [rbind] in H. injection H as <- <-. cbn.
  exists price, atr, stops, size.
  repeat split; try reflexivity.
  - rewrite lookup_app_r, Nat.sub_diag by lia. reflexivity.
  - unfold calculate_stop_levels in Hs. result_cases Hs.
    injection Hs as <-. reflexivity.
Qed.

(** What a successful update of an active symbol started from. *)
Lemma update_position_inv (self : PositionManager) (symbol : string)
    (current_price current_atr : float) (ref : nat) (self' : PositionManager) :
  update_position self symbol current_price current_atr = Ok (Some ref, self') ->
  exists position factor,
    positions self !! symbol = Some ref /\
    objects self !! ref = Some position /\
    py_getitem (risk_params (risk_manager self)) "stop_loss_atr_factor" = Ok factor /\
    self' = {| risk_manager := risk_manager self;
               objects :=
                 <[ref := updated position
                            (py_max (trailing_stop (p_stops position))
                                    (current_price - current_atr * factor))
                            current_price]> (objects self);
               positions := positions self;
               position_history := position_history self |}.
Proof.
  unfold update_position. intros H.
  destruct (positions self !! symbol) as [r|] eqn:Hr; [ | discriminate H ].
  destruct (objects self !! r) as [position|] eqn:Ho; [ | discriminate H ].
  destruct (py_getitem _ _) as [factor|] eqn:Hk; [ | discriminate H ].
  cbn [rbind] in H. injection H as <- <-. eauto 10.
Qed.

(** X1: an update right after a successful [open_position] never raises.
    It returns the dict that was opened, with the trailing stop raised from
    price - 3 atr of the signal to the maximum of that and
    current_price - current_atr * stop_loss_atr_factor, and the unrealized
    P&L (current_price - entry price) * units; the history still holds the
    position once. *)
Theorem open_then_update (self self1 : PositionManager) (now_stops now_entry : datetime)
    (symbol : string) (signal : gmap string float) (market_regime : MarketRegime)
    (ref : nat) (current_price current_atr : float) :
  Risk.open_position _verify_risk_limits _get_position_type self now_stops now_entry
    symbol signal market_regime = Ok (ref, self1) ->
  exists price atr factor self2 position,
    py_getitem signal "price" = Ok price /\
    py_getitem signal "atr" = Ok atr /\
    py_getitem (risk_params (risk_manager self)) "stop_loss_atr_factor" = Ok factor /\
    update_position self1 symbol current_price current_atr = Ok (Some ref, self2) /\
    objects self2 !! ref = Some position /\
    trailing_stop (p_stops position)
    = py_max (price - atr * 3) (current_price - current_atr * factor) /\
    p_entry_price position = price /\
    p_current_price position = Some current_price /\
    p_unrealized_pl position
    = Some ((current_price - price) * units (p_size position)) /\
    position_history self2 = position_history self ++ [ref].
Proof.
  intros Hopen.
  assert (Hk : exists factor,
             py_getitem (risk_params (risk_manager self)) "stop_loss_atr_factor"
             = Ok factor).
  { unfold Risk.open_position in Hopen. result_cases Hopen.
    unfold calculate_stop_levels in E4.
    destruct (py_getitem (risk_params (risk_manager self)) "stop_loss_atr_factor")
      as [factor|]; [ eauto | discriminate E4 ]. }
  destruct Hk as [factor Hk].
  destruct (open_position_stored _ _ _ _ _ _ _ _ Hopen)
    as (price & atr & stops & size & Hp & Ha & Href & Hrm & Hpos & Hhist & Hobj & Hts).
  assert (Hreg : positions self1 !! symbol = Some ref)
    by (rewrite Hpos; apply lookup_insert_eq).
  rewrite <- Hrm in Hk.
  destruct (update_position_open self1 symbol ref _ factor current_price current_atr
              Hreg Hobj Hk)
    as (self2 & Hup & _ & _ & Hh2 & Hobj2 & _).
  exists price, atr, factor, self2. eexists.
  rewrite Hrm in Hk.
  repeat split; try eassumption; try reflexivity.
  - cbn. rewrite Hts. reflexivity.
  - rewrite Hh2. exact Hhist.
Qed.

Lemma registry_inj_init (rm : RiskManager) : registry_inj (PositionManager_init rm).
Proof. intros s s' r H. cbn in H. rewrite lookup_empty in H. discriminate. Qed.

Lemma registry_inj_open (self self' : PositionManager) (now_stops now_entry : datetime)
    (symbol : string) (signal : gmap string float) (market_regime : MarketRegime)
    (ref : nat) :
  registry_ok self -> registry_inj self ->
  Risk.open_position _verify_risk_limits _get_position_type self now_stops now_entry
    symbol signal market_regime = Ok (ref, self') ->
  registry_inj self'.
Proof.
  intros Hok Hinj Hopen.
  destruct (open_position_stored _ _ _ _ _ _ _ _ Hopen)
    as (_ & _ & _ & _ & _ & _ & Href & _ & Hpos & _).
  assert (Hfresh : forall s, positions self !! s = Some ref -> False).
  { intros s Hs. destruct (Hok s ref Hs) as [x Hx].
    apply lookup_lt_Some in Hx. lia. }
  intros s s' r. rewrite Hpos.
  destruct (decide (s = symbol)) as [->|Hs], (decide (s' = symbol)) as [->|Hs'];
    rewrite ?lookup_insert_eq, ?lookup_insert_ne by congruence.
  - reflexivity.
  - intros [= <-] H'. destruct (Hfresh _ H').
  - intros H [= <-]. destruct (Hfresh _ H).
  - apply Hinj.
Qed.

Lemma registry_update (self self' : PositionManager) (symbol : string)
    (current_price current_atr : float) (returned : option nat) :
  update_position self symbol current_price current_atr = Ok (returned, self') ->
  positions self' = positions self
  /\ length (objects self') = length (objects self)
  /\ (registry_ok self -> registry_ok self')
  /\ (registry_inj self -> registry_inj self').
Proof.
  intros H. destruct returned as [ref|].
  - destruct (update_position_inv _ _ _ _ _ _ H) as (position & factor & _ & _ & _ & ->).
    cbn. split; [ reflexivity | ]. split; [ apply length_insert | ].
    split; [ | auto ].
    intros Hok s r Hs. cbn in *. destruct (Hok s r Hs) as [x Hx].
    apply lookup_lt_is_Some. rewrite length_insert. eapply lookup_lt_Some, Hx.
  - unfold update_position in H.
    destruct (positions self !! symbol) as [r|].
    + destruct (objects self !! r); [ | discriminate H ].
      destruct (py_getitem _ _); discriminate H.
    + injection H as <-. auto.
Qed.

(** X2: in a manager whose symbols have dicts of their own (as every
    manager built by [open_position] has), an update of one symbol leaves
    the position of every other symbol as it was. *)
Theorem update_leaves_other_symbols (self self' : PositionManager)
    (symbol other : string) (current_price current_atr : float)
    (returned : option nat) (ref : nat) :
  registry_inj self ->
  other <> symbol ->
  positions self !! other = Some ref ->
  update_position self symbol current_price current_atr = Ok (returned, self') ->
  positions self' !! other = Some ref
  /\ objects self' !! ref = objects self !! ref
  /\ trailing_stop_of self' other = trailing_stop_of self other.
Proof.
  intros Hinj Hne Hother H.
  assert (Hobj : positions self' = positions self
                 /\ objects self' !! ref = objects self !! ref).
  { destruct returned as [r|].
    - destruct (update_position_inv _ _ _ _ _ _ H)
        as (position & factor & Hreg & _ & _ & ->). cbn.
      split; [ reflexivity | ]. apply list_lookup_insert_ne.
      intros ->. apply Hne. eapply Hinj; eassumption.
    - unfold update_position in H.
      destruct (positions self !! symbol) as [r|].
      + destruct (objects self !! r); [ | discriminate H ].
        destruct (py_getitem _ _); discriminate H.
      + injection H as <-. auto. }
  destruct Hobj as [Hpos Hobj]. rewrite Hpos.
  split; [ exact Hother | ]. split; [ exact Hobj | ].
  unfold trailing_stop_of. rewrite Hpos, Hother. cbn. rewrite Hobj. reflexivity.
Qed.

(** X3: closing a position that was opened and never updated raises
    KeyError('current_price'), and the position is gone from the active
    registry all the same: the pop and the exit stamps come before the
    failing lookup.  The history keeps its single entry and a second close
    returns None. *)
Theorem open_then_close (self self1 : PositionManager) (now_stops now_entry now : datetime)
    (symbol reason : string) (signal : gmap string float) (market_regime : MarketRegime)
    (ref : nat) (closed : gmap nat Exit) :
  Risk.open_position _verify_risk_limits _get_position_type self now_stops now_entry
    symbol signal market_regime = Ok (ref, self1) ->
  exists after,
    close_position {| book := self1; exits := closed |} now symbol reason
    = (Raise (KeyError "current_price"), after) /\
    positions (book after) !! symbol = None /\
    position_history (book after) = position_history self ++ [ref] /\
    exits after !! ref
    = Some {| exit_time := now; exit_reason := reason; realized_pl := None |} /\
    forall now' reason',
      close_position after now' symbol reason' = (Ok None, after).
Proof.
  intros Hopen.
  destruct (open_position_stored _ _ _ _ _ _ _ _ Hopen)
    as (price & atr & stops & size & _ & _ & _ & _ & Hpos & Hhist & Hobj & _).
  assert (Hreg : positions self1 !! symbol = Some ref)
    by (rewrite Hpos; apply lookup_insert_eq).
  eexists. unfold close_position at 1. cbn [book exits]. rewrite Hreg, Hobj.
  cbn [p_current_price]. split; [ reflexivity | ]. cbn.
  split; [ apply lookup_delete_eq | ]. split; [ exact Hhist | ].
  split; [ apply lookup_insert_eq | ].
  intros now' reason'. unfold close_position. cbn.
  rewrite lookup_delete_eq. reflexivity.
Qed.

(** X4: closing after an update returns the position, takes it out of the
    active registry, records as realized P&L the unrealized P&L of that last
    update, and appends to the history the very dict that [open_position]
    had appended already; a second close returns None and changes nothing. *)
Theorem update_then_close (self self1 : PositionManager) (now : datetime)
    (symbol reason : string) (current_price current_atr : float) (ref : nat)
    (closed : gmap nat Exit) :
  update_position self symbol current_price current_atr = Ok (Some ref, self1) ->
  exists position after,
    objects self1 !! ref = Some position /\
    close_position {| book := self1; exits := closed |} now symbol reason
    = (Ok (Some ref), after) /\
    positions (book after) = delete symbol (positions self) /\
    position_history (book after) = position_history self ++ [ref] /\
    objects (book after) = objects self1 /\
    exits after !! ref
    = Some {| exit_time := now; exit_reason := reason;
              realized_pl := p_unrealized_pl position |} /\
    p_unrealized_pl position
    = Some ((current_price - p_entry_price position) * units (p_size position)) /\
    forall now' reason',
      close_position after now' symbol reason' = (Ok None, after).
Proof.
  intros H.
  destruct (update_position_inv _ _ _ _ _ _ H) as (p0 & factor & Hreg & Hobj & _ & ->).
  assert (Hl : <[ref := updated p0
                          (py_max (trailing_stop (p_stops p0))
                                  (current_price - current_atr * factor))
                          current_price]> (objects self) !! ref
               = Some (updated p0
                         (py_max (trailing_stop (p_stops p0))
                                 (current_price - current_atr * factor))
                         current_price)).
  { apply list_lookup_insert_eq. eapply lookup_lt_Some, Hobj. }
  eexists _, _. split; [ exact Hl | ].
  unfold close_position at 1. cbn [book exits positions objects]. rewrite Hreg, Hl.
  cbn [p_current_price updated]. split; [ reflexivity | ]. cbn.
  repeat split.
  - apply lookup_insert_eq.
  - intros now' reason'. unfold close_position. cbn.
    rewrite lookup_delete_eq. reflexivity.
Qed.

(** X5: a whole life of a position.  After open, update and close the
    history holds the same dict twice, once from the open and once from the
    close, and the symbol can be opened again: the new position gets a dict
    of its own. *)
Theorem history_holds_closed_position_twice (self self1 self2 : PositionManager)
    (now_stops now_entry now : datetime) (symbol reason : string)
    (signal : gmap string float) (market_regime : MarketRegime)
    (ref returned : nat) (current_price current_atr : float) (closed : gmap nat Exit) :
  Risk.open_position _verify_risk_limits _get_position_type self now_stops now_entry
    symbol signal market_regime = Ok (ref, self1) ->
  update_position self1 symbol current_price current_atr = Ok (Some returned, self2) ->
  returned = ref
  /\ exists after,
       close_position {| book := self2; exits := closed |} now symbol reason
       = (Ok (Some ref), after) /\
       position_history (book after) = position_history self ++ [ref; ref] /\
       positions (book after) !! symbol = None /\
       forall now_stops' now_entry' signal' regime' ref' reopened,
         Risk.open_position _verify_risk_limits _get_position_type (book after)
           now_stops' now_entry' symbol signal' regime' = Ok (ref', reopened) ->
         ref' <> ref /\ position_history reopened
                        = position_history self ++ [ref; ref; ref'].
Proof.
  intros Hopen Hup.
  destruct (open_position_stored _ _ _ _ _ _ _ _ Hopen)
    as (price & atr & stops & size & _ & _ & Href & _ & Hpos & Hhist & Hobj & _).
  destruct (update_position_inv _ _ _ _ _ _ Hup) as (p0 & factor & Hreg & _ & _ & _).
  rewrite Hpos, lookup_insert_eq in Hreg. injection Hreg as <-.
  split; [ reflexivity | ].
  destruct (update_then_close _ _ now symbol reason _ _ _ closed Hup)
    as (position & after & Hobj2 & Hclose & Hpos' & Hhist' & Hobjs & _).
  exists after. split; [ exact Hclose | ].
  split; [ rewrite Hhist', Hhist, <- app_assoc; reflexivity | ].
  split; [ rewrite Hpos'; apply lookup_delete_eq | ].
  intros now_stops' now_entry' signal' regime' ref' reopened Hre.
  destruct (open_position_stored _ _ _ _ _ _ _ _ Hre)
    as (_ & _ & _ & _ & _ & _ & Href' & _ & _ & Hh & _).
  split.
  - rewrite Href', Hobjs. apply lookup_lt_Some in Hobj2. lia.
  - rewrite Hh, Hhist', Hhist, <- !app_assoc. reflexivity.
Qed.

End WithRiskLimits.

(** ** The life of a position on concrete inputs *)

Definition fresh_manager : PositionManager := PositionManager_init default_manager.

(** The manager after opening AAPL and then MSFT. *)
Definition two_open : PositionManager :=
  match Risk.open_position accept_units constant_tag opened_once 2%Z 3%Z "MSFT"
          demo_signal (regime_of "NEUTRAL" "NORMAL") with
  | Ok (_, self') => self'
  | Raise _ => opened_once
  end.

(** The manager after one update of AAPL at price 110 and ATR 5. *)
Definition updated_once : PositionManager :=
  match update_position opened_once "AAPL" 110 5 with
  | Ok (_, self') => self'
  | Raise _ => opened_once
  end.

Lemma opened_once_is_open :
  Risk.open_position accept_units constant_tag fresh_manager 0%Z 1%Z "AAPL" demo_signal
    (regime_of "NEUTRAL" "HIGH") = Ok (0%nat, opened_once).
Proof. vm_compute. reflexivity. Qed.

Lemma open_then_update_witness :
  exists self2 position,
    update_position opened_once "AAPL" 110 5 = Ok (Some 0%nat, self2) /\
    objects self2 !! 0%nat = Some position /\
    trailing_stop (p_stops position) = 100 /\
    p_unrealized_pl position = Some ((110 - 100) * units (p_size position)).
Proof.
  destruct (open_then_update accept_units constant_tag fresh_manager opened_once
              0%Z 1%Z "AAPL" demo_signal (regime_of "NEUTRAL" "HIGH") 0 110 5
              opened_once_is_open)
    as (price & atr & factor & self2 & position & Hp & Ha & Hk & Hup & Hobj & Hts
        & _ & _ & Hpl & _).
  vm_compute in Hp. injection Hp as <-. vm_compute in Ha. injection Ha as <-.
  vm_compute in Hk. injection Hk as <-.
  exists self2, position. split; [ exact Hup | ]. split; [ exact Hobj | ].
  split; [ rewrite Hts; vm_compute; reflexivity | exact Hpl ].
Defined.

(** The manager with both symbols open after one update of AAPL. *)
Definition two_open_updated : PositionManager :=
  match update_position two_open "AAPL" 110 5 with
  | Ok (_, self') => self'
  | Raise _ => two_open
  end.

Lemma two_open_update :
  update_position two_open "AAPL" 110 5 = Ok (Some 0%nat, two_open_updated).
Proof. vm_compute. reflexivity. Qed.

Lemma two_open_inj : registry_inj two_open.
Proof.
  eapply (registry_inj_open accept_units constant_tag opened_once two_open 2%Z 3%Z
            "MSFT" demo_signal (regime_of "NEUTRAL" "NORMAL") 1).
  - eapply (Risk.registry_ok_open accept_units constant_tag fresh_manager);
      [ apply Risk.registry_ok_init | apply opened_once_is_open ].
  - eapply (registry_inj_open accept_units constant_tag fresh_manager);
      [ apply Risk.registry_ok_init | apply registry_inj_init
      | apply opened_once_is_open ].
  - vm_compute. reflexivity.
Qed.

Lemma update_leaves_other_symbols_witness :
  positions two_open !! "MSFT" = Some 1%nat
  /\ trailing_stop_of two_open_updated "MSFT" = Some 85
  /\ trailing_stop_of two_open_updated "AAPL" = Some 100.
Proof.
  split; [ vm_compute; reflexivity | ].
  destruct (update_leaves_other_symbols two_open two_open_updated "AAPL" "MSFT" 110 5
              (Some 0%nat) 1 two_open_inj ltac:(discriminate)
              ltac:(vm_compute; reflexivity) two_open_update)
    as (_ & _ & Hts).
  split; [ rewrite Hts | ]; vm_compute; reflexivity.
Defined.

Lemma open_then_close_witness :
  exists after,
    close_position {| book := opened_once; exits := ∅ |} 9%Z "AAPL" "stopped out"
    = (Raise (KeyError "current_price"), after) /\
    positions (book after) !! "AAPL" = None /\
    position_history (book after) = [0%nat].
Proof.
  destruct (open_then_close accept_units constant_tag fresh_manager opened_once
              0%Z 1%Z 9%Z "AAPL" "stopped out" demo_signal (regime_of "NEUTRAL" "HIGH")
              0 ∅ opened_once_is_open)
    as (after & Hclose & Hpos & Hhist & _).
  exists after. split; [ exact Hclose | ]. split; [ exact Hpos | exact Hhist ].
Defined.

Lemma update_then_close_witness :
  exists position after,
    objects updated_once !! 0%nat = Some position /\
    close_position {| book := updated_once; exits := ∅ |} 9%Z "AAPL" "target"
    = (Ok (Some 0%nat), after) /\
    realized_pl <$> exits after !! 0%nat = Some (p_unrealized_pl position) /\
    positions (book after) !! "AAPL" = None.
Proof.
  destruct (update_then_close opened_once updated_once 9%Z "AAPL" "target" 110 5 0 ∅)
    as (position & after & Hobj & Hclose & Hpos & _ & _ & Hexit & _).
  - vm_compute. reflexivity.
  - exists position, after. split; [ exact Hobj | ]. split; [ exact Hclose | ].
    split; [ rewrite Hexit; reflexivity | ].
    rewrite Hpos. apply lookup_delete_eq.
Defined.

Lemma history_holds_closed_position_twice_witness :
  exists after,
    close_position {| book := updated_once; exits := ∅ |} 9%Z "AAPL" "target"
    = (Ok (Some 0%nat), after) /\
    position_history (book after) = [0%nat; 0%nat].
Proof.
  destruct (history_holds_closed_position_twice accept_units constant_tag fresh_manager
              opened_once updated_once 0%Z 1%Z 9%Z "AAPL" "target" demo_signal
              (regime_of "NEUTRAL" "HIGH") 0 0 110 5 ∅ opened_once_is_open)
    as (_ & after & Hclose & Hhist & _).
  - vm_compute. reflexivity.
  - exists after. split; [ exact Hclose | exact Hhist ].
Defined.

End Lifecycle.

(** * Further properties of position sizing and stop levels *)

Local Open Scope float_scope.

Lemma is_nan_spec (x : float) : is_nan x = true -> Prim2SF x = S754_nan.
Proof.
  unfold is_nan. intros H. apply negb_true_iff in H. revert H.
  rewrite FloatAxioms.eqb_spec. unfold SFeqb, SFcompare.
  destruct (Prim2SF x) as [s|s| |s m e]; try destruct s;
    rewrite ?Z.compare_refl, ?Pos.compare_cont_refl; cbn; congruence.
Qed.

(** Every comparison with NaN is false. *)
Lemma nan_compares_false (x y : float) :
  is_nan x = true ->
  PrimFloat.ltb x y = false /\ PrimFloat.ltb y x = false /\ PrimFloat.eqb x y = false.
Proof.
  intros H. apply is_nan_spec in H.
  rewrite !FloatAxioms.ltb_spec, FloatAxioms.eqb_spec, H.
  unfold SFltb, SFeqb, SFcompare. destruct (Prim2SF y); auto.
Qed.

Local Close Scope float_scope.

Module Sizing.

Import Risk.
Local Open Scope float_scope.
Local Open Scope result_scope.

(** The risk parameters hold every key of the defaults, as they do in every
    manager that [RiskManager.__init__] built. *)
Definition has_default_keys (self : RiskManager) : Prop :=
  forall k, is_Some (default_risk_params !! k) -> is_Some (risk_params self !! k).

Lemma init_has_default_keys (capital : float) (overrides : gmap string float) :
  has_default_keys (RiskManager_init capital overrides).
Proof.
  intros k Hk. destruct (init_param_present capital overrides k Hk) as [v Hv].
  unfold py_getitem in Hv. destruct (risk_params _ !! k); [ eauto | discriminate Hv ].
Qed.

Lemma default_key_lookup (self : RiskManager) (k : string) :
  has_default_keys self -> is_Some (default_risk_params !! k) ->
  exists v, py_getitem (risk_params self) k = Ok v.
Proof.
  intros Hd Hk. destruct (Hd k Hk) as [v Hv]. exists v.
  unfold py_getitem. rewrite Hv. reflexivity.
Qed.

(** X6: the signal factor is 1.2, 0.8 or 1.0 and nothing else, and a
    strength that is NaN gets the neutral 1.0, both comparisons being false
    for it. *)
Theorem signal_adjustment_values (signal_strength : float) :
  (_get_signal_adjustment signal_strength = 1.2
   \/ _get_signal_adjustment signal_strength = 0.8
   \/ _get_signal_adjustment signal_strength = 1.0)
  /\ (py_gt signal_strength 0.8 = true -> _get_signal_adjustment signal_strength = 1.2)
  /\ (is_nan signal_strength = true -> _get_signal_adjustment signal_strength = 1.0).
Proof.
  unfold _get_signal_adjustment. split; [ | split ].
  - destruct (py_gt signal_strength 0.8); [ auto | ].
    destruct (py_lt signal_strength 0.4); auto.
  - intros ->. reflexivity.
  - intros Hn. unfold py_gt, py_lt.
    destruct (nan_compares_false signal_strength 0.8 Hn) as (_ & -> & _).
    destruct (nan_compares_false signal_strength 0.4 Hn) as (-> & _).
    reflexivity.
Qed.

Section WithRiskLimits.

Variable _verify_risk_limits : RiskManager -> float -> float -> string -> result float.
Variable _get_position_type : RiskManager -> float -> result string.

(** X7: a returned [PositionSize] is consistent: its value is units times
    the entry price, its risk percent is risk amount over capital, and it is
    only ever returned when neither the capital nor the stop distance is
    zero. *)
Theorem returned_size_is_consistent (self : RiskManager) (symbol : string)
    (entry_price stop_loss signal_strength : float) (market_regime : MarketRegime)
    (size : PositionSize) :
  calculate_position_size _verify_risk_limits _get_position_type self symbol
    entry_price stop_loss signal_strength market_regime = Ok size ->
  value size = units size * entry_price
  /\ risk_percent size = risk_amount size / capital self
  /\ PrimFloat.eqb (capital self) 0 = false
  /\ PrimFloat.eqb (abs (entry_price - stop_loss)) 0 = false.
Proof.
  unfold calculate_position_size. intros H. result_cases H.
  injection H as <-. cbn.
  unfold py_truediv in E1.
  destruct (PrimFloat.eqb (capital self) 0) eqn:Hc; [ discriminate E1 | ].
  injection E1 as <-.
  destruct (sizing_locals_inv _ _ _ _ _ _ E) as (mps & _ & _ & Hbu & _).
  unfold py_truediv in Hbu.
  destruct (PrimFloat.eqb (abs (entry_price - stop_loss)) 0); [ discriminate Hbu | ].
  auto.
Qed.

(** X8: with a capital of zero no size is ever computed: whatever the
    prices, the signal and the regime, [calculate_position_size] raises
    ZeroDivisionError, out of the stop distance or out of the exposure
    ratio. *)
Theorem zero_capital_never_sizes (self : RiskManager) (symbol : string)
    (entry_price stop_loss signal_strength : float) (market_regime : MarketRegime) :
  has_default_keys self ->
  PrimFloat.eqb (capital self) 0 = true ->
  calculate_position_size _verify_risk_limits _get_position_type self symbol
    entry_price stop_loss signal_strength market_regime = Raise ZeroDivisionError.
Proof.
  intros Hd Hc. unfold calculate_position_size, sizing_locals.
  destruct (default_key_lookup self "max_position_size" Hd ltac:(vm_compute; eauto))
    as [mps ->].
  cbn [rbind]. unfold py_truediv at 1.
  destruct (PrimFloat.eqb (abs (entry_price - stop_loss)) 0); [ reflexivity | ].
  cbn [rbind].
  assert (Hr : exists rf, _get_regime_adjustment self market_regime = Ok rf).
  { unfold _get_regime_adjustment.
    destruct (String.eqb (volatility market_regime) "HIGH").
    - apply (default_key_lookup self "position_scaling_factor" Hd).
      vm_compute. eauto.
    - destruct (_ && _); eauto. }
  destruct Hr as [rf ->]. cbn [rbind].
  unfold _get_portfolio_adjustment, exposure_ratio, py_truediv. rewrite Hc.
  reflexivity.
Qed.

End WithRiskLimits.

(** X9: the stop levels depend on the regime through one test only,
    whether its volatility is 'HIGH'; the signal strength and the trend,
    strength and confidence of the regime have no effect. *)
Theorem stop_levels_ignore_strength_and_trend (self : RiskManager) (now : datetime)
    (entry_price atr strength strength' : float) (regime regime' : MarketRegime) :
  String.eqb (volatility regime) "HIGH" = String.eqb (volatility regime') "HIGH" ->
  calculate_stop_levels self now entry_price atr strength regime
  = calculate_stop_levels self now entry_price atr strength' regime'.
Proof.
  intros H. unfold calculate_stop_levels. rewrite H. reflexivity.
Qed.

(** [calculate_stop_levels] returns exactly when the risk
    parameters hold 'stop_loss_atr_factor' and raises KeyError otherwise.
    What it returns has the trailing stop 3 ATR below the entry whatever the
    factor and the regime, the time stop five days after now, and three
    profit stops at 1.5, 2 and 3 times the distance between entry and
    initial stop. *)
Lemma stop_levels_shape (self : RiskManager) (now : datetime)
    (entry_price atr signal_strength : float) (market_regime : MarketRegime) :
  match risk_params self !! "stop_loss_atr_factor" with
  | None =>
      calculate_stop_levels self now entry_price atr signal_strength market_regime
      = Raise (KeyError "stop_loss_atr_factor")
  | Some factor =>
      exists levels,
        calculate_stop_levels self now entry_price atr signal_strength market_regime
        = Ok levels /\
        initial_stop levels
        = (if String.eqb (volatility market_regime) "HIGH"
           then entry_price - atr * factor * 1.5
           else entry_price - atr * factor) /\
        trailing_stop levels = entry_price - atr * 3 /\
        time_stop levels = (now + 5 * 86400 * 1000000)%Z /\
        profit_stops levels
        = [ entry_price + (entry_price - initial_stop levels) * 1.5;
            entry_price + (entry_price - initial_stop levels) * 2;
            entry_price + (entry_price - initial_stop levels) * 3 ]
  end.
Proof.
  unfold calculate_stop_levels, py_getitem.
  destruct (risk_params self !! "stop_loss_atr_factor") as [factor|]; [ | reflexivity ].
  cbn [rbind]. destruct (String.eqb (volatility market_regime) "HIGH");
    cbn [rbind]; eexists; (split; [ reflexivity | ]); cbn; auto.
Qed.

(** ** On concrete inputs *)

Lemma returned_size_is_consistent_witness :
  exists size,
    calculate_position_size accept_units constant_tag default_manager "AAPL" 50 48 0.5
      (regime_of "NEUTRAL" "NORMAL") = Ok size /\
    value size = units size * 50 /\
    risk_percent size = risk_amount size / 100000.
Proof.
  eexists. split; [ vm_compute; reflexivity | ].
  destruct (returned_size_is_consistent accept_units constant_tag default_manager
              "AAPL" 50 48 0.5 (regime_of "NEUTRAL" "NORMAL") _
              ltac:(vm_compute; reflexivity))
    as (Hv & Hp & _).
  split; [ exact Hv | exact Hp ].
Defined.

Lemma zero_capital_never_sizes_witness :
  calculate_position_size accept_units constant_tag (RiskManager_init 0 ∅) "AAPL"
    50 48 0.5 (regime_of "NEUTRAL" "NORMAL") = Raise ZeroDivisionError.
Proof.
  apply (zero_capital_never_sizes accept_units constant_tag (RiskManager_init 0 ∅)).
  - apply init_has_default_keys.
  - reflexivity.
Defined.

Lemma stop_levels_ignore_strength_and_trend_witness :
  calculate_stop_levels default_manager 0%Z 100 5 0.1 (regime_of "BULLISH" "LOW")
  = calculate_stop_levels default_manager 0%Z 100 5 0.9 (regime_of "BEARISH" "NORMAL").
Proof.
  apply (stop_levels_ignore_strength_and_trend default_manager 0%Z 100 5 0.1 0.9
           (regime_of "BULLISH" "LOW") (regime_of "BEARISH" "NORMAL")).
  reflexivity.
Defined.

End Sizing.

(** * PortfolioRisk.update_sector_exposure and the RiskMonitor *)

Module Monitoring.

Import Risk.
Local Open Scope float_scope.
Local Open Scope result_scope.

(** ** Sector exposure *)

(** One turn of the loop of [update_sector_exposure]: a symbol that is not
    held is skipped; a held one adds its value to the entry of its sector,
    which starts at 0. *)
Definition add_to_sector (positions : gmap string PositionSize)
    (sector_exposure : gmap string float) (entry : string * string)
  : gmap string float :=
  let '(symbol, sector) := entry in
  match positions !! symbol with
  | Some position =>
      let current := default 0 (sector_exposure !! sector) in
      <[sector := current + value position]> sector_exposure
  | None => sector_exposure
  end.

(** [update_sector_exposure]: [sector_data] is walked in insertion order
    and the map is rebuilt from empty. *)
Definition update_sector_exposure (positions : gmap string PositionSize)
    (sector_data : list (string * string)) : gmap string float :=
  fold_left (add_to_sector positions) sector_data ∅.

(** The values of the held symbols that [sector_data] puts in [sector], in
    the order of [sector_data]. *)
Definition held_values (positions : gmap string PositionSize)
    (sector_data : list (string * string)) (sector : string) : list float :=
  omap (fun entry : string * string =>
          if String.eqb (snd entry) sector then value <$> positions !! fst entry
          else None)
       sector_data.

Lemma held_values_cons (positions : gmap string PositionSize) (symbol sec : string)
    (rest : list (string * string)) (sector : string) :
  held_values positions ((symbol, sec) :: rest) sector
  = match (if String.eqb sec sector then value <$> positions !! symbol else None) with
    | Some v => v :: held_values positions rest sector
    | None => held_values positions rest sector
    end.
Proof. reflexivity. Qed.

Lemma fold_add_to_sector (positions : gmap string PositionSize)
    (sector_data : list (string * string)) (sector : string)
    (start : gmap string float) :
  fold_left (add_to_sector positions) sector_data start !! sector
  = match held_values positions sector_data sector with
    | [] => start !! sector
    | values =>
        Some (fold_left (fun acc x => acc + x) values (default 0 (start !! sector)))
    end.
Proof.
  revert start. induction sector_data as [|[symbol sec] rest IH]; intros start.
  - reflexivity.
  - cbn [fold_left]. rewrite IH, held_values_cons. unfold add_to_sector.
    destruct (positions !! symbol) as [position|] eqn:Hp.
    + destruct (String.eqb_spec sec sector) as [->|Hne].
      * rewrite lookup_insert_eq. cbn [fmap option_fmap option_map default fold_left].
        destruct (held_values positions rest sector); reflexivity.
      * rewrite lookup_insert_ne by exact Hne. reflexivity.
    + destruct (String.eqb sec sector); reflexivity.
Qed.

(** X10: after [update_sector_exposure], a sector has an entry exactly
    when [sector_data] puts a held symbol in it, and the entry is the sum,
    started at 0 and taken in the order of [sector_data], of the values of
    the held symbols of that sector; symbols that are not held count for
    nothing. *)
Theorem sector_exposure_is_sum_of_held_values (positions : gmap string PositionSize)
    (sector_data : list (string * string)) (sector : string) :
  update_sector_exposure positions sector_data !! sector
  = match held_values positions sector_data sector with
    | [] => None
    | values => Some (py_sum values)
    end.
Proof.
  unfold update_sector_exposure. rewrite fold_add_to_sector, lookup_empty.
  reflexivity.
Qed.

(** ** RiskMonitor *)

(** The keys that [monitor_position_risk] reads from a position dict, each
    with the type it is used at; [None] is a missing key. *)
Record MonitoredPosition : Type := {
  m_unrealized_pl : option float;
  m_risk_amount : option float;
  m_symbol : option string;
  m_time_stop : option datetime;
  m_price : option float;
  m_trailing_stop : option float
}.

Definition key {A : Type} (name : string) (v : option A) : result A :=
  match v with
  | Some a => Ok a
  | None => Raise (KeyError name)
  end.

Definition warning (symbol what : string) : string :=
  String.append "Position " (String.append symbol what).

(** [monitor_position_risk]; [now] is the reading of [datetime.now()].  The
    symbol is looked up only when a warning is written. *)
Definition monitor_position_risk (now : datetime) (position : MonitoredPosition)
  : result (list string) :=
  unrealized_pl <- key "unrealized_pl" (m_unrealized_pl position) ;;
  risk_amount <- key "risk_amount" (m_risk_amount position) ;;
  warnings1 <-
    (if py_lt unrealized_pl (- risk_amount) then
       symbol <- key "symbol" (m_symbol position) ;;
       Ok [warning symbol " exceeds risk limit"]
     else Ok []) ;;
  time_stop <- key "time_stop" (m_time_stop position) ;;
  warnings2 <-
    (if (time_stop <? now)%Z then
       symbol <- key "symbol" (m_symbol position) ;;
       Ok (warnings1 ++ [warning symbol " reached time stop"])
     else Ok warnings1) ;;
  price <- key "price" (m_price position) ;;
  trailing_stop <- key "trailing_stop" (m_trailing_stop position) ;;
  if py_lt price trailing_stop then
    symbol <- key "symbol" (m_symbol position) ;;
    Ok (warnings2 ++ [warning symbol " hit trailing stop"])
  else Ok warnings2.

(** The dict that [PositionManager] keeps for a position, seen through the
    keys the monitor reads: it has 'symbol', it has 'unrealized_pl' once
    updated, and it has none of 'risk_amount', 'time_stop', 'price' and
    'trailing_stop' (the stops sit inside the object under 'stops'). *)
Definition as_monitored (position : Position) : MonitoredPosition :=
  {| m_unrealized_pl := p_unrealized_pl position;
     m_risk_amount := None;
     m_symbol := Some (p_symbol position);
     m_time_stop := None;
     m_price := None;
     m_trailing_stop := None |}.

(** X11: a dict built by [PositionManager] cannot be monitored:
    [monitor_position_risk] raises KeyError on every one of them, for
    'unrealized_pl' before the first update and for 'risk_amount' after. *)
Theorem manager_positions_cannot_be_monitored (now : datetime) (position : Position) :
  monitor_position_risk now (as_monitored position)
  = match p_unrealized_pl position with
    | None => Raise (KeyError "unrealized_pl")
    | Some _ => Raise (KeyError "risk_amount")
    end.
Proof.
  unfold monitor_position_risk, as_monitored. cbn.
  destruct (p_unrealized_pl position); reflexivity.
Qed.

(** X12: the three tests are strict.  A position whose loss equals its
    risk amount, whose time stop is this very instant and whose price sits
    on the trailing stop gets no warning, and its symbol is not even
    looked up. *)
Theorem at_the_limits_no_warning (now : datetime) (risk_amount price : float)
    (symbol : option string) :
  monitor_position_risk now
    {| m_unrealized_pl := Some (- risk_amount);
       m_risk_amount := Some risk_amount;
       m_symbol := symbol;
       m_time_stop := Some now;
       m_price := Some price;
       m_trailing_stop := Some price |}
  = Ok [].
Proof.
  unfold monitor_position_risk, py_lt. cbn.
  rewrite ltb_irrefl. cbn. rewrite Z.ltb_irrefl. cbn.
  rewrite ltb_irrefl. reflexivity.
Qed.

(** The keys that [monitor_portfolio_risk] reads from a portfolio dict. *)
Record MonitoredPortfolio : Type := {
  m_drawdown : option float;
  m_exposure : option float;
  m_max_correlation : option float
}.

(** [monitor_portfolio_risk].  [RiskMonitor.__init__] does not assign the
    [self.risk_params] that the method reads; it is the dict given here. *)
Definition monitor_portfolio_risk (risk_params : gmap string float)
    (portfolio : MonitoredPortfolio) : result (list string) :=
  drawdown <- key "drawdown" (m_drawdown portfolio) ;;
  max_daily_drawdown <- py_getitem risk_params "max_daily_drawdown" ;;
  let warnings1 :=
    if py_lt drawdown (- max_daily_drawdown)
    then ["Portfolio exceeds daily drawdown limit"] else [] in
  exposure <- key "exposure" (m_exposure portfolio) ;;
  max_portfolio_risk <- py_getitem risk_params "max_portfolio_risk" ;;
  let warnings2 :=
    if py_gt exposure max_portfolio_risk
    then warnings1 ++ ["Portfolio exceeds exposure limit"] else warnings1 in
  max_correlation <- key "max_correlation" (m_max_correlation portfolio) ;;
  max_correlation_risk <- py_getitem risk_params "max_correlation_risk" ;;
  Ok (if py_gt max_correlation max_correlation_risk
      then warnings2 ++ ["Portfolio exceeds correlation limit"] else warnings2).

(** A number that is not negative is not below the opposite of another. *)
Lemma not_below_opposite (x limit : float) :
  PrimFloat.leb 0 x = true -> PrimFloat.leb 0 limit = true ->
  py_lt x (- limit) = false.
Proof.
  unfold py_lt. rewrite !FloatAxioms.leb_spec, FloatAxioms.ltb_spec, FloatAxioms.opp_spec.
  sf_const 0. unfold SFleb, SFltb, SFcompare, SFopp.
  destruct (Prim2SF x) as [s|s| |s m e], (Prim2SF limit) as [s'|s'| |s' m' e'];
    try destruct s; try destruct s'; cbn; congruence.
Qed.

(** X13: the drawdown test expects a negative number.  A drawdown given
    as a non-negative fraction, however large, never raises the drawdown
    warning under a non-negative limit; the warnings that do come are some
    of the three messages, in their fixed order. *)
Theorem positive_drawdown_never_warns (risk_params : gmap string float)
    (drawdown exposure max_correlation limit : float) (warnings : list string) :
  risk_params !! "max_daily_drawdown" = Some limit ->
  PrimFloat.leb 0 drawdown = true ->
  PrimFloat.leb 0 limit = true ->
  monitor_portfolio_risk risk_params
    {| m_drawdown := Some drawdown;
       m_exposure := Some exposure;
       m_max_correlation := Some max_correlation |}
  = Ok warnings ->
  ("Portfolio exceeds daily drawdown limit" ∉ warnings)
  /\ (warnings `sublist_of` [ "Portfolio exceeds exposure limit";
                              "Portfolio exceeds correlation limit" ]).
Proof.
  intros Hk Hd Hl. unfold monitor_portfolio_risk, py_getitem.
  cbn [key rbind m_drawdown m_exposure m_max_correlation]. rewrite Hk.
  cbn [rbind]. rewrite (not_below_opposite drawdown limit Hd Hl).
  destruct (risk_params !! "max_portfolio_risk") as [f|]; [ | discriminate ].
  destruct (risk_params !! "max_correlation_risk") as [f0|]; [ | discriminate ].
  cbn [rbind]. intros [= <-].
  assert (Hnot : forall l : list string,
             l `sublist_of` [ "Portfolio exceeds exposure limit";
                              "Portfolio exceeds correlation limit" ] ->
             "Portfolio exceeds daily drawdown limit" ∉ l).
  { intros l Hsub Hin. apply (fun H => elem_of_sublist _ _ _ H Hsub) in Hin.
    repeat (apply elem_of_cons in Hin; destruct Hin as [Hin|Hin];
            [ discriminate Hin | ]).
    apply elem_of_nil in Hin. exact Hin. }
  assert (Hsub : (if py_gt max_correlation f0
                  then (if py_gt exposure f
                        then [] ++ ["Portfolio exceeds exposure limit"] else [])
                       ++ ["Portfolio exceeds correlation limit"]
                  else if py_gt exposure f
                       then [] ++ ["Portfolio exceeds exposure limit"] else [])
                 `sublist_of` [ "Portfolio exceeds exposure limit";
                                "Portfolio exceeds correlation limit" ]).
  { destruct (py_gt exposure f), (py_gt max_correlation f0); cbn [app].
    - reflexivity.
    - apply sublist_skip, sublist_nil_l.
    - apply sublist_cons. reflexivity.
    - apply sublist_nil_l. }
  split; [ apply Hnot, Hsub | exact Hsub ].
Qed.

Lemma positive_drawdown_never_warns_witness :
  monitor_portfolio_risk default_risk_params
    {| m_drawdown := Some 0.5; m_exposure := Some 0.01; m_max_correlation := Some 0.9 |}
  = Ok ["Portfolio exceeds correlation limit"]
  /\ ("Portfolio exceeds daily drawdown limit"
      ∉ ["Portfolio exceeds correlation limit"]).
Proof.
  split; [ vm_compute; reflexivity | ].
  apply (positive_drawdown_never_warns default_risk_params 0.5 0.01 0.9 0.03
           ["Portfolio exceeds correlation limit"]).
  - vm_compute. reflexivity.
  - reflexivity.
  - reflexivity.
  - vm_compute. reflexivity.
Defined.

End Monitoring.

(** * Further properties of the order manager and of the monitoring loop *)

Module Orders.

Import Execution.

Section WithBroker.

Variable Broker : Type.
Variable broker_submit_order :
  Broker -> list Order -> nat -> result nat * (Broker * list Order).
Variable broker_cancel_order :
  Broker -> list Order -> string -> result bool * (Broker * list Order).
Variable non_member_in_OrderType : string -> result bool.
Variable get_order_status : string -> M Broker nat.
Variable _handle_partial_fill : nat -> M Broker unit.
Variable asyncio_sleep : World Broker -> World Broker.

(** Every active id is in the full registry. *)
Definition active_registered (w : World Broker) : Prop :=
  forall id, is_Some (active_orders w !! id) -> is_Some (orders w !! id).

(** Every way [submit_order] can end. *)
Lemma submit_order_outcome (order : nat) (w w' : World Broker) (r : result nat) :
  submit_order Broker broker_submit_order non_member_in_OrderType order w = (r, w') ->
  (exists e msg h b,
     r = Raise e /\
     w' = {| heap := h; orders := orders w; filled_orders := filled_orders w;
             active_orders := active_orders w; log := log w ++ [msg]; broker := b |})
  \/ (exists submitted o' h b,
        r = Ok submitted /\ h !! submitted = Some o' /\
        w' = {| heap := h;
                orders := <[order_id o' := submitted]> (orders w);
                filled_orders := filled_orders w;
                active_orders := <[order_id o' := submitted]> (active_orders w);
                log := log w; broker := b |}).
Proof.
  unfold submit_order, try_except, bind, getattr, lift, call_broker_submit, logger_error,
    raise, with_log.
  destruct (heap w !! order) as [o|]; cbn.
  - destruct (_validate_order non_member_in_OrderType o) as [[]|e]; cbn.
    + destruct (broker_submit_order (broker w) (heap w) order) as [[submitted|e] [b h]];
        cbn.
      * destruct (h !! submitted) as [o'|] eqn:Ho'; cbn.
        -- intros [= <- <-]. right. eauto 10.
        -- intros [= <- <-]. left. eauto 10.
      * intros [= <- <-]. left. eauto 10.
    + intros [= <- <-]. left. eauto 10.
  - intros [= <- <-]. left. eauto 10.
Qed.

(** Every way [cancel_order] can end. *)
Lemma cancel_order_outcome (id : string) (w w' : World Broker) (r : result bool) :
  cancel_order Broker broker_cancel_order id w = (r, w') ->
  (r = Ok false /\ w' = w /\ active_orders w !! id = None)
  \/ (exists held h b ref,
        active_orders w !! id = Some held /\ orders w !! id = Some ref /\
        r = Ok true /\
        w' = {| heap := alter (with_status CANCELLED) ref h; orders := orders w;
                filled_orders := filled_orders w;
                active_orders := delete id (active_orders w);
                log := log w; broker := b |})
  \/ (exists held e msg h b,
        active_orders w !! id = Some held /\
        broker_cancel_order (broker w) (heap w) id = (Raise e, (b, h)) /\
        r = Raise e /\
        w' = {| heap := h; orders := orders w; filled_orders := filled_orders w;
                active_orders := active_orders w;
                log := log w ++ [msg]; broker := b |})
  \/ (exists held msg h b,
        active_orders w !! id = Some held /\ orders w !! id = None /\
        r = Raise (KeyError id) /\
        w' = {| heap := h; orders := orders w; filled_orders := filled_orders w;
                active_orders := delete id (active_orders w);
                log := log w ++ [msg]; broker := b |}).
Proof.
  destruct (active_orders w !! id) as [held|] eqn:Ha.
  - rewrite (cancel_order_active Broker broker_cancel_order id w held Ha).
    destruct (broker_cancel_order (broker w) (heap w) id) as [[ok|e] [b h]] eqn:Hb.
    + destruct (orders w !! id) as [ref|] eqn:Ho; intros [= <- <-].
      * right. left. eauto 10.
      * right. right. right. unfold with_log. cbn. eauto 10.
    + intros [= <- <-]. right. right. left. unfold with_log. cbn. eauto 12.
  - destruct (cancel_order_inactive Broker broker_cancel_order id w) as [Hn _].
    rewrite (Hn Ha). intros [= <- <-]. left. auto.
Qed.

(** X14: neither [submit_order] nor [cancel_order] ever writes
    [filled_orders] or takes an id out of the full registry, and both keep
    every active id registered. *)
Theorem registries_only_grow (w w' : World Broker) :
  (exists order r,
     submit_order Broker broker_submit_order non_member_in_OrderType order w = (r, w'))
  \/ (exists id r, cancel_order Broker broker_cancel_order id w = (r, w')) ->
  filled_orders w' = filled_orders w
  /\ (forall id, is_Some (orders w !! id) -> is_Some (orders w' !! id))
  /\ (active_registered w -> active_registered w').
Proof.
  intros [(order & r & H) | (id & r & H)].
  - destruct (submit_order_outcome _ _ _ _ H)
      as [(e & msg & h & b & _ & ->) | (submitted & o' & h & b & _ & _ & ->)]; cbn.
    + auto.
    + split; [ reflexivity | ]. split.
      * intros id. rewrite lookup_insert_is_Some. destruct (decide (order_id o' = id)); auto.
      * intros Hreg id. cbn. rewrite !lookup_insert_is_Some.
        intros [-> | [Hne Hid]]; [ auto | right; auto ].
  - destruct (cancel_order_outcome _ _ _ _ H)
      as [(_ & -> & _)
         | [(held & h & b & ref & _ & _ & _ & ->)
           | [(held & e & msg & h & b & _ & _ & _ & ->)
             | (held & msg & h & b & _ & _ & _ & ->)]]]; cbn; auto.
    + split; [ reflexivity | ]. split; [ auto | ].
      intros Hreg id'. cbn. rewrite lookup_delete_is_Some. intros [_ Hid]. auto.
    + split; [ reflexivity | ]. split; [ auto | ].
      intros Hreg id'. cbn. rewrite lookup_delete_is_Some. intros [_ Hid]. auto.
Qed.

(** X15: as long as every active id is registered, [cancel_order] raises
    only when the broker does, with the broker's exception, and then
    leaves both registries as they were. *)
Theorem cancel_raises_only_with_broker (id : string) (w w' : World Broker) (e : exn) :
  active_registered w ->
  cancel_order Broker broker_cancel_order id w = (Raise e, w') ->
  (exists b h, broker_cancel_order (broker w) (heap w) id = (Raise e, (b, h)))
  /\ orders w' = orders w
  /\ active_orders w' = active_orders w.
Proof.
  intros Hreg H.
  destruct (cancel_order_outcome _ _ _ _ H)
    as [(Hr & _ & _)
       | [(held & h & b & ref & _ & _ & Hr & _)
         | [(held & e' & msg & h & b & Ha & Hb & Hr & ->)
           | (held & msg & h & b & Ha & Ho & _ & _)]]]; try discriminate Hr.
  - injection Hr as <-. cbn. eauto.
  - destruct (Hreg id) as [x Hx]; [ eauto | ]. rewrite Ho in Hx. discriminate Hx.
Qed.

(** X16: when the broker refuses a validated order, [submit_order]
    registers nothing: both registries are as before, the message is logged
    and the broker's exception is the one raised. *)
Theorem broker_refusal_registers_nothing (order : nat) (o : Order) (w : World Broker)
    (e : exn) (b : Broker) (h : list Order) :
  heap w !! order = Some o ->
  _validate_order non_member_in_OrderType o = Ok tt ->
  broker_submit_order (broker w) (heap w) order = (Raise e, (b, h)) ->
  submit_order Broker broker_submit_order non_member_in_OrderType order w
  = (Raise e,
     {| heap := h; orders := orders w; filled_orders := filled_orders w;
        active_orders := active_orders w;
        log := log w ++ [String.append "Order submission error: " (exn_msg e)];
        broker := b |}).
Proof.
  intros Hobj Hv Hb.
  unfold submit_order, try_except, bind, getattr, lift, call_broker_submit.
  rewrite Hobj, Hv, Hb. reflexivity.
Qed.

(** X17: an order just submitted can be cancelled exactly once.  If the
    broker accepts the cancel and keeps the object, the first
    [cancel_order] under the id the broker gave returns True and leaves the
    order CANCELLED and still in the full registry; the second returns
    False. *)
Theorem submit_then_cancel (order submitted : nat) (w w1 : World Broker)
    (o1 o2 : Order) (ok : bool) (b : Broker) (h : list Order) :
  submit_order Broker broker_submit_order non_member_in_OrderType order w
  = (Ok submitted, w1) ->
  heap w1 !! submitted = Some o1 ->
  broker_cancel_order (broker w1) (heap w1) (order_id o1) = (Ok ok, (b, h)) ->
  h !! submitted = Some o2 ->
  exists w2,
    cancel_order Broker broker_cancel_order (order_id o1) w1 = (Ok true, w2) /\
    status_of w2 (order_id o1) = Some CANCELLED /\
    orders w2 !! order_id o1 = Some submitted /\
    active_orders w2 !! order_id o1 = None /\
    cancel_order Broker broker_cancel_order (order_id o1) w2 = (Ok false, w2).
Proof.
  intros Hs Ho1 Hb Ho2.
  destruct (submit_order_outcome _ _ _ _ Hs)
    as [(e & msg & h' & b' & Hr & _) | (s' & o' & h' & b' & Hr & Ho' & ->)];
    [ discriminate Hr | ].
  injection Hr as <-. cbn in Ho1, Hb. rewrite Ho1 in Ho'. injection Ho' as <-.
  eexists. rewrite (cancel_order_active _ _ _ _ submitted) by apply lookup_insert_eq.
  cbn [broker heap orders]. rewrite Hb, lookup_insert_eq.
  split; [ reflexivity | ]. unfold status_of. cbn.
  rewrite lookup_insert_eq. cbn. rewrite list_lookup_alter_eq, Ho2. cbn.
  split; [ reflexivity | ]. split; [ reflexivity | ].
  split; [ apply lookup_delete_eq | ].
  destruct (cancel_order_inactive Broker broker_cancel_order (order_id o1)
              {| heap := alter (with_status CANCELLED) submitted h;
                 orders := <[order_id o1 := submitted]> (orders w);
                 filled_orders := filled_orders w;
                 active_orders :=
                   delete (order_id o1) (<[order_id o1 := submitted]> (active_orders w));
                 log := log w; broker := b |}) as [Hn _].
  apply Hn. apply lookup_delete_eq.
Qed.

(** X18: the quantity test is a truth test, and NaN is true: an order
    whose quantity is NaN passes validation. *)
Theorem nan_quantity_passes_validation (o : Order) (t : OrderType) :
  symbol o <> "" ->
  order_type o = Member t ->
  is_nan (quantity o) = true ->
  _validate_order non_member_in_OrderType o = Ok tt.
Proof.
  intros Hs Ht Hn. unfold _validate_order, in_OrderType.
  destruct (String.eqb_spec (symbol o) ""); [ contradiction | ].
  destruct (nan_compares_false (quantity o) 0%float Hn) as (_ & _ & ->).
  rewrite Ht. reflexivity.
Qed.

End WithBroker.

(** ** On concrete inputs *)

(** The same world with the connection to the broker down. *)
Definition disconnected (w : World bool) : World bool :=
  {| heap := heap w; orders := orders w; filled_orders := filled_orders w;
     active_orders := active_orders w; log := log w; broker := false |}.

Definition after_cancel : World bool :=
  snd (cancel_order bool demo_cancel "ord-1" (submitted_world SUBMITTED)).

Lemma submitted_world_registered : active_registered bool (submitted_world SUBMITTED).
Proof. intros id H. exact H. Qed.

Lemma registries_only_grow_witness :
  filled_orders after_cancel = filled_orders (submitted_world SUBMITTED)
  /\ is_Some (orders after_cancel !! "ord-1")
  /\ active_registered bool after_cancel.
Proof.
  destruct (registries_only_grow bool (demo_submit SUBMITTED) demo_cancel member_values
              (submitted_world SUBMITTED) after_cancel) as (Hf & Ho & Ha).
  - right. exists "ord-1", (Ok true). vm_compute. reflexivity.
  - split; [ exact Hf | ]. split; [ | exact (Ha submitted_world_registered) ].
    apply Ho. vm_compute. eauto.
Defined.

Definition after_failed_cancel : World bool :=
  snd (cancel_order bool demo_cancel "ord-1" (disconnected (submitted_world SUBMITTED))).

Lemma cancel_raises_only_with_broker_witness :
  cancel_order bool demo_cancel "ord-1" (disconnected (submitted_world SUBMITTED))
  = (Raise unreachable, after_failed_cancel)
  /\ orders after_failed_cancel = orders (submitted_world SUBMITTED)
  /\ active_orders after_failed_cancel = active_orders (submitted_world SUBMITTED).
Proof.
  split; [ vm_compute; reflexivity | ].
  destruct (cancel_raises_only_with_broker bool demo_cancel "ord-1"
              (disconnected (submitted_world SUBMITTED)) after_failed_cancel unreachable)
    as (_ & Ho & Ha).
  - intros id H. exact H.
  - vm_compute. reflexivity.
  - split; [ exact Ho | exact Ha ].
Defined.

Lemma broker_refusal_registers_nothing_witness :
  submit_order bool (demo_submit SUBMITTED) member_values 0
    (disconnected (world_with (demo_order 10)))
  = (Raise unreachable,
     {| heap := [demo_order 10]; orders := ∅; filled_orders := ∅; active_orders := ∅;
        log := ["Order submission error: broker unreachable"]; broker := false |}).
Proof.
  apply (broker_refusal_registers_nothing bool (demo_submit SUBMITTED) member_values 0
           (demo_order 10) (disconnected (world_with (demo_order 10))) unreachable
           false [demo_order 10]); reflexivity.
Defined.

Lemma submit_then_cancel_witness :
  exists w2,
    cancel_order bool demo_cancel "ord-1" (submitted_world SUBMITTED) = (Ok true, w2) /\
    status_of w2 "ord-1" = Some CANCELLED /\
    cancel_order bool demo_cancel "ord-1" w2 = (Ok false, w2).
Proof.
  destruct (submit_then_cancel bool (demo_submit SUBMITTED) demo_cancel member_values
              0 0 (world_with (demo_order 10)) (submitted_world SUBMITTED)
              (with_status SUBMITTED (demo_order 10))
              (with_status SUBMITTED (demo_order 10)) true true
              [with_status SUBMITTED (demo_order 10)])
    as (w2 & Hc & Hs & _ & _ & Hagain); try (vm_compute; reflexivity).
  exists w2. split; [ exact Hc | ]. split; [ exact Hs | exact Hagain ].
Defined.

Lemma nan_quantity_passes_validation_witness :
  _validate_order member_values (demo_order PrimFloat.nan) = Ok tt.
Proof.
  apply (nan_quantity_passes_validation member_values (demo_order PrimFloat.nan) MARKET).
  - discriminate.
  - reflexivity.
  - reflexivity.
Defined.

End Orders.

Module Polling.

Import Execution.

Section WithBroker.

Variable Broker : Type.
Variable broker_cancel_order :
  Broker -> list Order -> string -> result bool * (Broker * list Order).
Variable get_order_status : string -> M Broker nat.
Variable _handle_partial_fill : nat -> M Broker unit.
Variable asyncio_sleep : World Broker -> World Broker.

(** The [except] clause always ends in an exception. *)
Lemma monitoring_fault_raises (e : exn) (order : nat) (w : World Broker) :
  exists e' w', monitoring_fault Broker broker_cancel_order e order w = (Raise e', w').
Proof.
  unfold monitoring_fault, bind, logger_error, getattr, raise.
  destruct (heap _ !! order) as [o|]; [ | eauto ].
  destruct (cancel_order Broker broker_cancel_order (order_id o) _) as [[ok|e'] w'];
    eauto.
Qed.

Lemma loop_returns_terminal (fuel order order' : nat) (w w' : World Broker) :
  monitor_loop Broker get_order_status _handle_partial_fill asyncio_sleep fuel order w
  = (Returned order', w') ->
  exists o', heap w' !! order' = Some o' /\ is_terminal (status o') = true.
Proof.
  revert order w. induction fuel as [|fuel IH]; intros order w; cbn [monitor_loop].
  - destruct (heap w !! order) as [o|] eqn:Ho; [ | discriminate ].
    destruct (is_terminal (status o)) eqn:Ht; [ | discriminate ].
    intros [= <- <-]. eauto.
  - destruct (heap w !! order) as [o|] eqn:Ho; [ | discriminate ].
    destruct (is_terminal (status o)) eqn:Ht; [ intros [= <- <-]; eauto | ].
    destruct (get_order_status (order_id o) w) as [[next|e] w1]; [ | discriminate ].
    destruct (heap w1 !! next) as [o1|]; [ | discriminate ].
    destruct ((if is_partial (status o1) then _handle_partial_fill next
               else ret Broker tt) w1) as [[[]|e] w2]; [ | discriminate ].
    apply IH.
Qed.

(** X19: whenever [_monitor_execution] returns an order, that order is
    FILLED, CANCELLED or REJECTED at that moment; it never hands back an
    order that is still pending, submitted or partially filled. *)
Theorem monitored_order_is_terminal (fuel order order' : nat) (w w' : World Broker) :
  _monitor_execution Broker broker_cancel_order get_order_status _handle_partial_fill
    asyncio_sleep fuel order w = Some (Ok order', w') ->
  exists o',
    heap w' !! order' = Some o' /\
    (status o' = FILLED \/ status o' = CANCELLED \/ status o' = REJECTED).
Proof.
  unfold _monitor_execution.
  destruct (monitor_loop _ _ _ _ fuel order w) as [[r|e cur|cur] w1] eqn:Hloop.
  - intros [= <- <-]. destruct (loop_returns_terminal _ _ _ _ _ Hloop) as (o' & Ho & Ht).
    exists o'. split; [ exact Ho | ]. destruct (status o'); try discriminate Ht; auto.
  - destruct (monitoring_fault_raises e cur w1) as (e' & w2 & ->). discriminate.
  - discriminate.
Qed.

(** X20: an order that is terminal already is returned at once: the
    status is not polled, nothing is logged or cancelled, and the world is
    untouched. *)
Theorem terminal_order_returns_at_once (fuel order : nat) (o : Order) (w : World Broker) :
  heap w !! order = Some o ->
  is_terminal (status o) = true ->
  _monitor_execution Broker broker_cancel_order get_order_status _handle_partial_fill
    asyncio_sleep fuel order w = Some (Ok order, w).
Proof.
  intros Ho Ht. unfold _monitor_execution.
  destruct fuel; cbn [monitor_loop]; rewrite Ho, Ht; reflexivity.
Qed.

(** X21: the loop has no timeout.  While the status feed keeps handing
    back the same order, not terminal and not partial, and nothing else
    changes the world, [_monitor_execution] does not return, however many
    polls it is given. *)
Theorem stuck_order_is_polled_forever (order : nat) (o : Order) (w : World Broker) :
  heap w !! order = Some o ->
  is_terminal (status o) = false ->
  is_partial (status o) = false ->
  get_order_status (order_id o) w = (Ok order, w) ->
  asyncio_sleep w = w ->
  forall fuel,
    _monitor_execution Broker broker_cancel_order get_order_status _handle_partial_fill
      asyncio_sleep fuel order w = None.
Proof.
  intros Ho Ht Hp Hfeed Hsleep fuel.
  assert (Hloop : monitor_loop Broker get_order_status _handle_partial_fill
                    asyncio_sleep fuel order w = (StillPolling order, w)).
  { induction fuel as [|fuel IH]; cbn [monitor_loop]; rewrite Ho, Ht; [ reflexivity | ].
    rewrite Hfeed, Ho, Hp. unfold ret. rewrite Hsleep. exact IH. }
  unfold _monitor_execution. rewrite Hloop. reflexivity.
Qed.

Lemma loop_more_fuel (fuel extra order : nat) (w w' : World Broker) (x : loop_exit) :
  monitor_loop Broker get_order_status _handle_partial_fill asyncio_sleep fuel order w
  = (x, w') ->
  (forall cur, x <> StillPolling cur) ->
  monitor_loop Broker get_order_status _handle_partial_fill asyncio_sleep
    (fuel + extra) order w = (x, w').
Proof.
  revert order w. induction fuel as [|fuel IH]; intros order w H Hx.
  - cbn [monitor_loop] in H. destruct extra; cbn [Nat.add monitor_loop];
      [ exact H | ].
    destruct (heap w !! order) as [o|]; [ | exact H ].
    destruct (is_terminal (status o)); [ exact H | ].
    injection H as <- <-. destruct (Hx order). reflexivity.
  - cbn [Nat.add monitor_loop] in *.
    destruct (heap w !! order) as [o|]; [ | exact H ].
    destruct (is_terminal (status o)); [ exact H | ].
    destruct (get_order_status (order_id o) w) as [[next|e] w1]; [ | exact H ].
    destruct (heap w1 !! next) as [o1|]; [ | exact H ].
    destruct ((if is_partial (status o1) then _handle_partial_fill next
               else ret Broker tt) w1) as [[[]|e] w2]; [ | exact H ].
    apply IH; assumption.
Qed.

(** The bound on the number of polls only decides whether an
    outcome is seen, never which: once [_monitor_execution] has an outcome
    within some number of polls, it has the same outcome within any larger
    number. *)
Theorem outcome_independent_of_poll_bound (fuel extra order : nat) (w : World Broker)
    (outcome : result nat * World Broker) :
  _monitor_execution Broker broker_cancel_order get_order_status _handle_partial_fill
    asyncio_sleep fuel order w = Some outcome ->
  _monitor_execution Broker broker_cancel_order get_order_status _handle_partial_fill
    asyncio_sleep (fuel + extra) order w = Some outcome.
Proof.
  unfold _monitor_execution.
  destruct (monitor_loop _ _ _ _ fuel order w) as [x w1] eqn:Hloop.
  intros H. rewrite (loop_more_fuel fuel extra order w w1 x Hloop).
  - exact H.
  - intros cur ->. discriminate H.
Qed.

End WithBroker.

(** ** On concrete inputs *)

(** Two status feeds that answer from the registry: one reports the order
    as it is, one reports it filled. *)
Definition steady_feed : string -> M bool nat :=
  fun id w =>
    match orders w !! id with
    | Some ref => (Ok ref, w)
    | None => (Raise (KeyError id), w)
    end.

Definition filling_feed : string -> M bool nat :=
  fun id w =>
    match orders w !! id with
    | Some ref =>
        (Ok ref,
         {| heap := alter (with_status FILLED) ref (heap w); orders := orders w;
            filled_orders := filled_orders w; active_orders := active_orders w;
            log := log w; broker := broker w |})
    | None => (Raise (KeyError id), w)
    end.

Lemma monitored_order_is_terminal_witness :
  exists w' o',
    _monitor_execution bool demo_cancel filling_feed no_hook no_sleep 5 0
      (submitted_world SUBMITTED) = Some (Ok 0%nat, w') /\
    heap w' !! 0%nat = Some o' /\
    (status o' = FILLED \/ status o' = CANCELLED \/ status o' = REJECTED).
Proof.
  eexists.
  destruct (monitored_order_is_terminal bool demo_cancel filling_feed no_hook no_sleep
              5 0 0 (submitted_world SUBMITTED) _ ltac:(vm_compute; reflexivity))
    as (o' & Ho & Hs).
  exists o'. split; [ vm_compute; reflexivity | ]. split; [ exact Ho | exact Hs ].
Defined.

Lemma terminal_order_returns_at_once_witness :
  _monitor_execution bool demo_cancel timing_out_feed no_hook no_sleep 0 0
    (submitted_world FILLED) = Some (Ok 0%nat, submitted_world FILLED).
Proof.
  apply (terminal_order_returns_at_once bool demo_cancel timing_out_feed no_hook
           no_sleep 0 0 (with_status FILLED (demo_order 10)) (submitted_world FILLED)).
  - vm_compute. reflexivity.
  - reflexivity.
Defined.

Lemma stuck_order_is_polled_forever_witness :
  _monitor_execution bool demo_cancel steady_feed no_hook no_sleep 1000 0
    (submitted_world SUBMITTED) = None.
Proof.
  apply (stuck_order_is_polled_forever bool demo_cancel steady_feed no_hook no_sleep 0
           (with_status SUBMITTED (demo_order 10)) (submitted_world SUBMITTED));
    try reflexivity; vm_compute; reflexivity.
Defined.

Lemma outcome_independent_of_poll_bound_witness :
  exists outcome,
    _monitor_execution bool demo_cancel filling_feed no_hook no_sleep 1 0
      (submitted_world SUBMITTED) = Some outcome /\
    _monitor_execution bool demo_cancel filling_feed no_hook no_sleep (1 + 40) 0
      (submitted_world SUBMITTED) = Some outcome.
Proof.
  eexists. split; [ vm_compute; reflexivity | ].
  apply (outcome_independent_of_poll_bound bool demo_cancel filling_feed no_hook
           no_sleep 1 40 0 (submitted_world SUBMITTED)).
  vm_compute. reflexivity.
Defined.

End Polling.

(** * The execution optimizer *)

Module Optimizer.

Local Open Scope float_scope.
Local Open Scope result_scope.

Definition timedelta_minutes (m : Z) : Z := (m * 60 * 1000000)%Z.

(** The dict that the timing optimizer returns. *)
Record Timing : Type := {
  timing_type : string;
  duration : Z;
  intervals : Z
}.

Definition _get_high_volatility_timing : Timing :=
  {| timing_type := "TWAP"; duration := timedelta_minutes 30; intervals := 6 |}.

Definition _get_normal_timing : Timing :=
  {| timing_type := "IMMEDIATE"; duration := timedelta_minutes 5; intervals := 1 |}.

Definition get_optimal_timing (market_conditions : gmap string float) : result Timing :=
  volatility <- py_getitem market_conditions "volatility" ;;
  if py_gt volatility 0.02 then Ok _get_high_volatility_timing
  else Ok _get_normal_timing.

Definition estimate_impact (size : float) (market_data : gmap string float)
  : result float :=
  avg_volume <- py_getitem market_data "average_volume" ;;
  volatility <- py_getitem market_data "volatility" ;;
  spread <- py_getitem market_data "spread" ;;
  volume_ratio <- py_truediv size avg_volume ;;
  Ok (volume_ratio * volatility * spread).

Section WithBuilders.

(** The signal and strategy dicts, and the helpers of
    [ExecutionOptimizer] that the repository does not define. *)
Variable Signal Strategy : Type.
Variable _calculate_liquidity : gmap string float -> result float.
Variable _calculate_volatility : gmap string float -> result float.
Variable _calculate_spread : gmap string float -> result float.
Variable _build_algorithmic_strategy : Signal -> float -> result Strategy.
Variable _build_direct_strategy : Signal -> result Strategy.

Definition _analyze_market_conditions (market_data : gmap string float)
  : result (gmap string float) :=
  liquidity <- _calculate_liquidity market_data ;;
  volatility <- _calculate_volatility market_data ;;
  spread <- _calculate_spread market_data ;;
  Ok (<["spread" := spread]>
        (<["volatility" := volatility]> (<["liquidity" := liquidity]> ∅))).

Definition _build_execution_strategy (signal : Signal) (impact : float) (timing : Timing)
  : result Strategy :=
  if py_gt impact 0.01 then _build_algorithmic_strategy signal impact
  else _build_direct_strategy signal.

Definition get_optimal_strategy (signal : Signal) (market_data : gmap string float)
    (size : float) : result Strategy :=
  market_conditions <- _analyze_market_conditions market_data ;;
  impact <- estimate_impact size market_data ;;
  timing <- get_optimal_timing market_conditions ;;
  _build_execution_strategy signal impact timing.

(** X22: the timing optimizer has two answers, six slices over thirty
    minutes above a volatility of 0.02 and one slice over five minutes
    otherwise; in both a slice lasts five minutes.  A volatility that is NaN
    is not above 0.02 and gets the immediate timing. *)
Theorem timing_slices_last_five_minutes (market_conditions : gmap string float)
    (volatility : float) :
  market_conditions !! "volatility" = Some volatility ->
  exists timing,
    get_optimal_timing market_conditions = Ok timing /\
    duration timing = (intervals timing * timedelta_minutes 5)%Z /\
    (timing_type timing = "TWAP" /\ intervals timing = 6%Z
     /\ py_gt volatility 0.02 = true
     \/ timing_type timing = "IMMEDIATE" /\ intervals timing = 1%Z
        /\ py_gt volatility 0.02 = false) /\
    (is_nan volatility = true -> timing_type timing = "IMMEDIATE").
Proof.
  intros Hv. unfold get_optimal_timing, py_getitem. rewrite Hv. cbn [rbind].
  destruct (py_gt volatility 0.02) eqn:Hgt; eexists; (split; [ reflexivity | ]);
    (split; [ reflexivity | ]); split; auto.
  intros Hn. unfold py_gt in Hgt.
  destruct (nan_compares_false volatility 0.02 Hn) as (_ & Hf & _).
  rewrite Hf in Hgt. discriminate Hgt.
Qed.

(** X23: the pacing has no say in the strategy.  Whenever
    [get_optimal_strategy] returns, what it returns is the algorithmic
    strategy for the signal and the impact when the impact is above 0.01 and
    the direct strategy for the signal otherwise, whatever the market
    conditions and the timing computed from them; and the average volume
    was not zero. *)
Theorem strategy_ignores_timing (signal : Signal) (market_data : gmap string float)
    (size : float) (strategy : Strategy) :
  get_optimal_strategy signal market_data size = Ok strategy ->
  exists avg_volume volatility spread,
    market_data !! "average_volume" = Some avg_volume /\
    market_data !! "volatility" = Some volatility /\
    market_data !! "spread" = Some spread /\
    PrimFloat.eqb avg_volume 0 = false /\
    let impact := size / avg_volume * volatility * spread in
    (if py_gt impact 0.01 then _build_algorithmic_strategy signal impact
     else _build_direct_strategy signal) = Ok strategy.
Proof.
  unfold get_optimal_strategy. intros H. result_cases H.
  unfold estimate_impact, py_getitem, py_truediv in E0.
  destruct (market_data !! "average_volume") as [av|]; [ | discriminate E0 ].
  destruct (market_data !! "volatility") as [v|]; [ | discriminate E0 ].
  destruct (market_data !! "spread") as [sp|]; [ | discriminate E0 ].
  cbn [rbind] in E0.
  destruct (PrimFloat.eqb av 0) eqn:Hz; [ discriminate E0 | ].
  cbn [rbind] in E0. injection E0 as <-.
  exists av, v, sp. repeat split; try reflexivity; [ exact Hz | exact H ].
Qed.

(** X24: the market conditions that [_analyze_market_conditions]
    returns always carry the key 'volatility', so the timing optimizer
    never raises on them. *)
Theorem timing_never_fails_on_analyzed_conditions (market_data conditions : gmap string float) :
  _analyze_market_conditions market_data = Ok conditions ->
  exists timing, get_optimal_timing conditions = Ok timing.
Proof.
  unfold _analyze_market_conditions. intros H. result_cases H. injection H as <-.
  unfold get_optimal_timing, py_getitem.
  rewrite lookup_insert_ne by discriminate. rewrite lookup_insert_eq. cbn [rbind].
  destruct (py_gt a0 0.02); eauto.
Qed.

End WithBuilders.

(** ** On concrete inputs *)

(** Stand-ins for the helpers the repository does not define: the market
    conditions are read off the market data, and the strategies are named
    by their order type. *)
Definition read_key (k : string) : gmap string float -> result float :=
  fun market_data => py_getitem market_data k.
Definition algorithmic_demo : string -> float -> result string := fun _ _ => Ok "TWAP".
Definition direct_demo : string -> result string := fun _ => Ok "MARKET".

(** A volatile market and a small order. *)
Definition volatile_market : gmap string float :=
  list_to_map [ ("average_volume", 1000000); ("volatility", 0.05); ("spread", 0.01);
                ("liquidity", 1) ].

Lemma timing_slices_last_five_minutes_witness :
  get_optimal_timing volatile_market = Ok _get_high_volatility_timing
  /\ duration _get_high_volatility_timing
     = (intervals _get_high_volatility_timing * timedelta_minutes 5)%Z.
Proof.
  destruct (timing_slices_last_five_minutes volatile_market 0.05
              ltac:(vm_compute; reflexivity)) as (timing & Ht & Hd & _).
  assert (timing = _get_high_volatility_timing) as ->.
  { vm_compute in Ht. injection Ht as <-. reflexivity. }
  split; [ vm_compute; reflexivity | exact Hd ].
Defined.

Lemma strategy_ignores_timing_witness :
  get_optimal_timing volatile_market = Ok _get_high_volatility_timing
  /\ get_optimal_strategy string string (read_key "liquidity") (read_key "volatility")
       (read_key "spread") algorithmic_demo direct_demo "AAPL" volatile_market 100
     = Ok "MARKET".
Proof.
  split; [ vm_compute; reflexivity | ].
  destruct (strategy_ignores_timing string string (read_key "liquidity")
              (read_key "volatility") (read_key "spread") algorithmic_demo direct_demo
              "AAPL" volatile_market 100 "MARKET" ltac:(vm_compute; reflexivity))
    as (av & v & sp & _).
  vm_compute. reflexivity.
Defined.

Definition volatile_conditions : gmap string float :=
  <["spread" := 0.01]> (<["volatility" := 0.05]> (<["liquidity" := 1]> ∅)).

Lemma volatile_market_analyzed :
  _analyze_market_conditions (read_key "liquidity") (read_key "volatility")
    (read_key "spread") volatile_market = Ok volatile_conditions.
Proof. reflexivity. Qed.

Lemma timing_never_fails_on_analyzed_conditions_witness :
  exists timing, get_optimal_timing volatile_conditions = Ok timing.
Proof.
  exact (timing_never_fails_on_analyzed_conditions (read_key "liquidity")
           (read_key "volatility") (read_key "spread") volatile_market
           volatile_conditions volatile_market_analyzed).
Defined.

End Optimizer.
